(** * credit-compass-chat: the [chat-with-ai] edge function

    A shallow embedding of [supabase/functions/chat-with-ai/index.ts]:
    the system-prompt synthesis (lines 82-119) as pure string functions,
    and the request handler (lines 10-185) as a computation over an
    explicit store (the [chat_history] table, the console, the sequence
    of outbound calls) with exceptions. *)

From Stdlib Require Import ZArith List String Ascii Bool Lia.
From Stdlib Require Import DecimalString.
Import ListNotations.

Set Warnings "-register-all".

Local Open Scope string_scope.
Local Open Scope Z_scope.

(** ** Text helpers *)

(** The line feed that separates the lines of the template literals. *)
Definition nl : string := String (ascii_of_nat 10) EmptyString.

(** [Contains s t]: [t] occurs in [s] as a contiguous run of characters. *)
Definition Contains (s t : string) : Prop :=
  exists before after, s = before ++ t ++ after.

(** ** JavaScript values that reach a template literal *)

Module Js.

(** Numbers read from the INTEGER and DECIMAL(_,2) columns, kept as a
    count of hundredths: 720 is [72000], 1234.5 is [123450]. *)
Definition number := Z.

Definition of_int (n : Z) : number := 100 * n.

(** The decimal numeral of an integer. *)
Definition integer_to_string (d : Z) : string :=
  NilZero.string_of_int (Z.to_int d).

(** Number::toString on a value with at most two decimals: the integer
    part, then the decimals without trailing zeros. *)
Definition magnitude_to_string (h : Z) : string :=
  let whole := h / 100 in
  let frac := h mod 100 in
  integer_to_string whole ++
  (if frac =? 0 then EmptyString
   else if frac mod 10 =? 0 then "." ++ integer_to_string (frac / 10)
   else "." ++ integer_to_string (frac / 10) ++ integer_to_string (frac mod 10)).

Definition number_to_string (h : number) : string :=
  if h <? 0 then "-" ++ magnitude_to_string (- h)
  else magnitude_to_string h.

(** The primitive values a column of a fetched row can hold. *)
Inductive prim : Type :=
| PUndefined
| PNull
| PNum (n : number)
| PStr (s : string).

(** ToBoolean. *)
Definition truthy (v : prim) : bool :=
  match v with
  | PUndefined | PNull => false
  | PNum n => negb (n =? 0)
  | PStr s => negb (String.eqb s EmptyString)
  end.

(** [a || b]. *)
Definition or (a b : prim) : prim := if truthy a then a else b.

(** ToString, as applied by [${...}]. *)
Definition to_string (v : prim) : string :=
  match v with
  | PUndefined => "undefined"
  | PNull => "null"
  | PNum n => number_to_string n
  | PStr s => s
  end.

(** A nullable text column. *)
Definition text (c : option string) : prim :=
  match c with Some s => PStr s | None => PNull end.

(** A nullable INTEGER column. *)
Definition int (c : option Z) : prim :=
  match c with Some n => PNum (of_int n) | None => PNull end.

(** A nullable DECIMAL(_,2) column, given in hundredths. *)
Definition dec (c : option Z) : prim :=
  match c with Some h => PNum h | None => PNull end.

End Js.

(** ** Rows of the tables read by the handler *)

(** [profiles]: every column the prompt uses is nullable. *)
Record Profile : Type := {
  first_name : option string;
  last_name : option string;
  age : option Z;
  email : option string
}.

(** [credit_info]: [total_debt] and [credit_utilization] in hundredths. *)
Record CreditInfo : Type := {
  credit_score : option Z;
  total_debt : option Z;
  late_payments : option Z;
  credit_utilization : option Z
}.

(** [financial_goals]: [title] is NOT NULL, [target_amount] in
    hundredths, [target_date] the date as the store prints it. *)
Record Goal : Type := {
  title : string;
  description : option string;
  target_amount : option Z;
  target_date : option string;
  priority : option string;
  status : option string
}.

(** ** The system prompt (index.ts, lines 82-119) *)

(** [profile?.field]: undefined when there is no profile row. *)
Definition profile_field (profile : option Profile)
    (f : Profile -> Js.prim) : Js.prim :=
  match profile with
  | Some p => f p
  | None => Js.PUndefined
  end.

Definition persona : string :=
  "You are a helpful financial coach AI assistant. You provide personalized financial advice based on the user's information.".

Definition closing : string :=
  "Please provide helpful, personalized financial advice based on this information. Be encouraging, practical, and specific in your recommendations. If you don't have enough information about something, ask clarifying questions.".

(** Lines 82-87. *)
Definition identityBlock (profile : option Profile) : string :=
  persona ++ nl ++
  nl ++
  "User Information:" ++ nl ++
  "- Name: "
    ++ Js.to_string (Js.or (profile_field profile (fun p => Js.text (first_name p)))
                           (Js.PStr "Unknown"))
    ++ " "
    ++ Js.to_string (Js.or (profile_field profile (fun p => Js.text (last_name p)))
                           (Js.PStr EmptyString)) ++ nl ++
  "- Age: "
    ++ Js.to_string (Js.or (profile_field profile (fun p => Js.int (age p)))
                           (Js.PStr "Not provided")) ++ nl ++
  "- Email: "
    ++ Js.to_string (Js.or (profile_field profile (fun p => Js.text (email p)))
                           (Js.PStr "Not provided")).

(** Lines 90-96, the text appended when [creditInfo] is a row. *)
Definition creditBlock (creditInfo : CreditInfo) : string :=
  nl ++
  nl ++
  "Credit Information:" ++ nl ++
  "- Credit Score: "
    ++ Js.to_string (Js.or (Js.int (credit_score creditInfo)) (Js.PStr "Not provided")) ++ nl ++
  "- Total Debt: $"
    ++ Js.to_string (Js.or (Js.dec (total_debt creditInfo)) (Js.PStr "Not provided")) ++ nl ++
  "- Late Payments: "
    ++ Js.to_string (Js.or (Js.int (late_payments creditInfo)) (Js.PNum (Js.of_int 0))) ++ nl ++
  "- Credit Utilization: "
    ++ Js.to_string (Js.or (Js.dec (credit_utilization creditInfo)) (Js.PStr "Not provided"))
    ++ "%".

(** Lines 104-109: the first append of the [forEach] callback. *)
Definition goalEntry (index : nat) (goal : Goal) : string :=
  nl ++
  Js.number_to_string (Js.of_int (Z.of_nat index + 1)) ++ ". " ++ title goal
    ++ (if Js.truthy (Js.dec (target_amount goal))
        then " (Target: $" ++ Js.to_string (Js.dec (target_amount goal)) ++ ")"
        else EmptyString)
    ++ (if Js.truthy (Js.text (target_date goal))
        then " (Due: " ++ Js.to_string (Js.text (target_date goal)) ++ ")"
        else EmptyString) ++ nl ++
  "   Status: "
    ++ Js.to_string (Js.or (Js.text (status goal)) (Js.PStr "active")) ++ nl ++
  "   Priority: "
    ++ Js.to_string (Js.or (Js.text (priority goal)) (Js.PStr "medium")).

(** Lines 110-113: the second, conditional append of the callback. *)
Definition goalDescription (goal : Goal) : string :=
  if Js.truthy (Js.text (description goal))
  then nl ++ "   Description: " ++ Js.to_string (Js.text (description goal))
  else EmptyString.

(** One call of the [forEach] callback on the prompt built so far. *)
Definition goalCallback (systemPrompt : string) (index : nat) (goal : Goal) : string :=
  (systemPrompt ++ goalEntry index goal) ++ goalDescription goal.

(** [goals.forEach((goal, index) => ...)], from index [index] on. *)
Fixpoint forEach (goals : list Goal) (index : nat) (systemPrompt : string) : string :=
  match goals with
  | [] => systemPrompt
  | goal :: rest => forEach rest (S index) (goalCallback systemPrompt index goal)
  end.

(** Lines 82-119. [goals] is [None] when the select returned no data. *)
Definition systemPrompt (profile : option Profile) (creditInfo : option CreditInfo)
    (goals : option (list Goal)) : string :=
  let systemPrompt := identityBlock profile in
  let systemPrompt :=
    match creditInfo with
    | Some c => systemPrompt ++ creditBlock c
    | None => systemPrompt
    end in
  let systemPrompt :=
    match goals with
    | Some (g :: gs) =>
        forEach (g :: gs) 0 (systemPrompt ++ nl ++ nl ++ "Financial Goals:")
    | _ => systemPrompt
    end in
  systemPrompt ++ nl ++ nl ++ closing.

(** ** JSON documents and property access *)

Module Json.

(** A parsed JSON document. Numbers keep their literal: the handler
    never computes with them. An object lists its properties, each key
    once (JSON.parse keeps the last of two equal keys). *)
Inductive json : Type :=
| JNull
| JBool (b : bool)
| JNum (literal : string)
| JStr (s : string)
| JArr (items : list json)
| JObj (props : list (string * json)).

(** A JavaScript value built from JSON: [None] is [undefined]. *)
Definition value : Type := option json.
Definition undefined : value := None.

(** What a [throw] carries. [Error] is [new Error(message)]; the
    others are raised by the runtime. [TypeError] and [SyntaxError]
    (the latter from [req.json()]) have a message of the runtime's
    wording that nothing here reads. [ResponseSyntaxError] is the
    SyntaxError [response.json()] rejects with on a provider body that
    is not JSON: its message, worded by the runtime from that body, is
    kept, since it reaches the caller. *)
Inductive thrown : Type :=
| Error (message : string)
| TypeError
| SyntaxError
| ResponseSyntaxError (message : string).

(** A property key: [.name] or [[i]]. *)
Inductive key : Type :=
| Name (name : string)
| Index (i : nat).

Fixpoint lookup (name : string) (props : list (string * json)) : value :=
  match props with
  | [] => undefined
  | (k, v) :: rest => if String.eqb k name then Some v else lookup name rest
  end.

Definition index_name (i : nat) : string :=
  NilZero.string_of_uint (Nat.to_uint i).

(** [v.name] and [v[i]] for the names the handler reads ([message],
    [choices], [content]) and for indices: reading a property of
    [undefined] or [null] throws a TypeError, a primitive without that
    property gives [undefined]. *)
Definition get (v : value) (k : key) : thrown + value :=
  match v with
  | None => inl TypeError
  | Some JNull => inl TypeError
  | Some (JObj props) =>
      match k with
      | Name name => inr (lookup name props)
      | Index i => inr (lookup (index_name i) props)
      end
  | Some (JArr items) =>
      match k with
      | Name _ => inr undefined
      | Index i => inr (nth_error items i)
      end
  | Some (JStr s) =>
      match k with
      | Name _ => inr undefined
      | Index i =>
          inr (match String.get i s with
               | Some c => Some (JStr (String c EmptyString))
               | None => undefined
               end)
      end
  | Some (JBool _) | Some (JNum _) => inr undefined
  end.

(** [v] is [undefined] or [null]. *)
Definition nullish (v : value) : bool :=
  match v with
  | None | Some JNull => true
  | _ => false
  end.

End Json.

Import Json.

(** ** The store the handler acts on *)

(** A row of [chat_history] as the handler writes it; [id] and
    [timestamp] are filled in by the table's defaults. *)
Record Row : Type := {
  user_id : string;
  message : value;
  is_user_message : bool
}.

(** The error object of a storage call. *)
Record PgError : Type := {
  code : string;
  details : string
}.

(** An outbound call of the handler. *)
Inductive Call : Type :=
| GetUser
| Select (table : string)
| ReqJson
| Fetch (system : string) (user : value)
| Insert (row : Row).

(** Second argument of a console call. *)
Inductive Detail : Type :=
| NoDetail
| Text (s : string)
| Value (v : value)
| Failure (e : option PgError)
| Auth (e : option string)
| Thrown (e : thrown).

Inductive LogLine : Type :=
| ConsoleLog (label : string) (detail : Detail)
| ConsoleError (label : string) (detail : Detail).

Record Store : Type := {
  chat_history : list Row;
  console : list LogLine;
  calls : list Call
}.

(** ** The world of one request *)

Record User : Type := { id : string }.

(** The provider's HTTP response: [resp_json] is what [response.json()]
    resolves to, [None] when the body is not JSON; [resp_json_error] is
    then the message of the SyntaxError it rejects with (empty when the
    body is JSON). *)
Record ProviderResponse : Type := {
  resp_status : Z;
  resp_text : string;
  resp_json : option json;
  resp_json_error : string
}.

Inductive FetchResult : Type :=
| Rejects
| Responds (response : ProviderResponse).

(** Everything outside the handler that one request observes. *)
Record World : Type := {
  method : string;
  OPEN_AI_API_KEY : option string;
  auth_user : option User;
  auth_error : option string;
  profiles_row : option Profile;
  profiles_error : option PgError;
  credit_info_row : option CreditInfo;
  credit_info_error : option PgError;
  financial_goals_rows : option (list Goal);
  financial_goals_error : option PgError;
  req_json : option json;
  fetch : FetchResult;
  insert_error : Row -> option PgError
}.

(** ** The response *)

(** [error.message]: a text the handler can be followed to (the one
    given to [new Error], or the runtime's message about a provider
    body that is not JSON), or the runtime's own wording for the other
    errors it raises. *)
Inductive ErrorMessage : Type :=
| Message (s : string)
| TypeErrorMessage
| SyntaxErrorMessage.

Definition error_message (e : thrown) : ErrorMessage :=
  match e with
  | Error m => Message m
  | TypeError => TypeErrorMessage
  | SyntaxError => SyntaxErrorMessage
  | ResponseSyntaxError m => Message m
  end.

Module Http.

(** The response body before JSON.stringify. *)
Inductive Body : Type :=
| NoBody
| ResponseJson (response : value)
| ErrorJson (error : ErrorMessage).

(** [new Response(body, { status })]; the status defaults to 200. *)
Record Response : Type := {
  status : Z;
  body : Body
}.

End Http.


(** ** Computations over the store that may throw *)

Definition M (A : Type) : Type := Store -> (thrown + A) * Store.

Definition ret {A} (a : A) : M A := fun s => (inr a, s).

Definition bind {A B} (m : M A) (f : A -> M B) : M B :=
  fun s =>
    match m s with
    | (inl e, s') => (inl e, s')
    | (inr a, s') => f a s'
    end.

Definition throw {A} (e : thrown) : M A := fun s => (inl e, s).

(** [try { m } catch (error) { handler }]: the handler runs on the
    store as the throw left it. *)
Definition try_catch {A} (m : M A) (handler : thrown -> M A) : M A :=
  fun s =>
    match m s with
    | (inl e, s') => handler e s'
    | (inr a, s') => (inr a, s')
    end.

Definition lift {A} (r : thrown + A) : M A := fun s => (r, s).

Declare Scope handler_scope.
Delimit Scope handler_scope with handler.
Notation "x <- m ;; k" := (bind m (fun x => k))
  (at level 100, m at next level, right associativity) : handler_scope.
Notation "m ;; k" := (bind m (fun _ => k))
  (at level 100, right associativity) : handler_scope.
Local Open Scope handler_scope.

Definition console_log (label : string) (d : Detail) : M unit :=
  fun s => (inr tt, {| chat_history := chat_history s;
                       console := console s ++ [ConsoleLog label d];
                       calls := calls s |}).

Definition console_error (label : string) (d : Detail) : M unit :=
  fun s => (inr tt, {| chat_history := chat_history s;
                       console := console s ++ [ConsoleError label d];
                       calls := calls s |}).

Definition call (c : Call) : M unit :=
  fun s => (inr tt, {| chat_history := chat_history s;
                       console := console s;
                       calls := calls s ++ [c] |}).

Definition when (b : bool) (m : M unit) : M unit :=
  if b then m else ret tt.

Definition is_some {A} (o : option A) : bool :=
  match o with Some _ => true | None => false end.

(** The [error] of [supabase.from('chat_history').insert(row)]: the
    store's own refusal, or the NOT NULL column rejecting a row whose
    [message] is missing (JSON.stringify drops an [undefined] field). *)
Definition not_null_violation : PgError :=
  {| code := "23502"; details := "null value in column message" |}.

Definition insert_result (w : World) (row : Row) : option PgError :=
  match insert_error w row with
  | Some e => Some e
  | None => if nullish (message row) then Some not_null_violation else None
  end.

(** The insert itself: the row is appended when there is no error. *)
Definition insert (w : World) (row : Row) : M (option PgError) :=
  call (Insert row) ;;
  match insert_result w row with
  | Some e => ret (Some e)
  | None =>
      fun s => (inr None, {| chat_history := chat_history s ++ [row];
                             console := console s;
                             calls := calls s |})
  end.

(** [response.ok]. *)
Definition ok (r : ProviderResponse) : bool :=
  (200 <=? resp_status r) && (resp_status r <=? 299).

(** [data.choices[0].message] and [data.choices[0].message.content]
    (line 148). *)
Definition reply_message (data : json) : thrown + value :=
  match get (Some data) (Name "choices") with
  | inl e => inl e
  | inr choices =>
      match get choices (Index 0) with
      | inl e => inl e
      | inr choice => get choice (Name "message")
      end
  end.

Definition reply_content (data : json) : thrown + value :=
  match reply_message data with
  | inl e => inl e
  | inr reply => get reply (Name "content")
  end.

(** ** The handler (index.ts, lines 10-185) *)

(** Lines 17-43: the API key and the current user. *)
Definition authenticate (w : World) : M User :=
  openAIApiKey <-
    match OPEN_AI_API_KEY w with
    | Some k => if Js.truthy (Js.PStr k) then ret k
                else throw (Error "OPEN_AI_API_KEY is not set")
    | None => throw (Error "OPEN_AI_API_KEY is not set")
    end ;;
  call GetUser ;;
  user <-
    match auth_error w, auth_user w with
    | None, Some u => ret u
    | userError, _ =>
        console_error "User error:" (Auth userError) ;;
        throw (Error "User not authenticated")
    end ;;
  console_log "User authenticated:" (Text (id user)) ;;
  ret user.

(** Lines 45-75: profile, credit information and goals; a failed read
    is logged and its data used as it came. *)
Definition readState (w : World)
    : M (option Profile * option CreditInfo * option (list Goal)) :=
  call (Select "profiles") ;;
  let profile := profiles_row w in
  when (is_some (profiles_error w))
    (console_error "Profile error:" (Failure (profiles_error w))) ;;
  call (Select "credit_info") ;;
  let creditInfo := credit_info_row w in
  when (match credit_info_error w with
        | Some creditError => negb (String.eqb (code creditError) "PGRST116")
        | None => false
        end)
    (console_error "Credit info error:" (Failure (credit_info_error w))) ;;
  call (Select "financial_goals") ;;
  let goals := financial_goals_rows w in
  when (is_some (financial_goals_error w))
    (console_error "Goals error:" (Failure (financial_goals_error w))) ;;
  ret (profile, creditInfo, goals).

(** Lines 77-79: [const { message } = await req.json()]. *)
Definition parseBody (w : World) : M value :=
  call ReqJson ;;
  parsed <-
    match req_json w with
    | Some j => ret j
    | None => throw SyntaxError
    end ;;
  message <- lift (get (Some parsed) (Name "message")) ;;
  console_log "User message:" (Value message) ;;
  ret message.

(** Lines 123-150: the completion request and the reply taken from it. *)
Definition invoke (w : World) (systemPrompt : string) (message : value) : M value :=
  call (Fetch systemPrompt message) ;;
  response <-
    match fetch w with
    | Responds r => ret r
    | Rejects => throw TypeError
    end ;;
  when (negb (ok response))
    (console_error "OpenAI API error:" (Text (resp_text response)) ;;
     throw (Error ("OpenAI API error: "
                     ++ Js.number_to_string (Js.of_int (resp_status response))))) ;;
  data <-
    match resp_json response with
    | Some j => ret j
    | None => throw (ResponseSyntaxError (resp_json_error response))
    end ;;
  aiResponse <- lift (reply_content data) ;;
  console_log "AI response generated" NoDetail ;;
  ret aiResponse.

Definition userRow (user : User) (message : value) : Row :=
  {| user_id := id user; message := message; is_user_message := true |}.

Definition aiRow (user : User) (aiResponse : value) : Row :=
  {| user_id := id user; message := aiResponse; is_user_message := false |}.

(** Lines 152-173: both messages go to [chat_history]. *)
Definition record (w : World) (user : User) (message aiResponse : value) : M unit :=
  saveUserError <- insert w (userRow user message) ;;
  when (is_some saveUserError)
    (console_error "Error saving user message:" (Failure saveUserError)) ;;
  saveAIError <- insert w (aiRow user aiResponse) ;;
  when (is_some saveAIError)
    (console_error "Error saving AI message:" (Failure saveAIError)) ;;
  console_log "Messages saved to chat history" NoDetail.

Definition success (aiResponse : value) : Http.Response :=
  {| Http.status := 200; Http.body := Http.ResponseJson aiResponse |}.

Definition failure (error : thrown) : Http.Response :=
  {| Http.status := 500; Http.body := Http.ErrorJson (error_message error) |}.

Definition preflight : Http.Response :=
  {| Http.status := 200; Http.body := Http.NoBody |}.

(** Lines 17-177, the body of the [try]. *)
Definition turn (w : World) : M Http.Response :=
  user <- authenticate w ;;
  state <- readState w ;;
  let '(profile, creditInfo, goals) := state in
  message <- parseBody w ;;
  let systemPrompt := systemPrompt profile creditInfo goals in
  console_log "System prompt created" NoDetail ;;
  aiResponse <- invoke w systemPrompt message ;;
  record w user message aiResponse ;;
  ret (success aiResponse).

(** Lines 10-185: the handler given to [serve]. *)
Definition serve (w : World) : M Http.Response :=
  if String.eqb (method w) "OPTIONS" then ret preflight
  else
    try_catch (turn w)
      (fun error =>
         console_error "Error in chat-with-ai function:" (Thrown error) ;;
         ret (failure error)).

Definition empty_store : Store :=
  {| chat_history := []; console := []; calls := [] |}.

(** The response of a run and the store it leaves. *)
Definition response_of {A} (r : (thrown + A) * Store) : thrown + A := fst r.
Definition store_of {A} (r : (thrown + A) * Store) : Store := snd r.

(** ** How the prompt is described *)

(** The usual decimal numeral of an integer. *)
Definition decimal (n : Z) : string := NilZero.string_of_int (Z.to_int n).

Definition join (parts : list string) : string :=
  fold_right append EmptyString parts.

(** A list with its items numbered from 1, in the order given. *)
Definition numbered {A} (l : list A) : list (nat * A) :=
  combine (seq 1 (List.length l)) l.

(** A numeric column as the prompt shows it: the number, or the
    fallback when the column is null or holds zero. *)
Definition shown (column : option Z) (show : Z -> string) (fallback : string) : string :=
  match column with
  | Some v => if v =? 0 then fallback else show v
  | None => fallback
  end.

(** A text column as the prompt shows it: the text, or the fallback
    when the column is null or holds the empty text. *)
Definition shown_text (column : option string) (fallback : string) : string :=
  match column with
  | Some t => if String.eqb t EmptyString then fallback else t
  | None => fallback
  end.

Definition targetSuffix (goal : Goal) : string :=
  match target_amount goal with
  | Some amount =>
      if amount =? 0 then EmptyString
      else " (Target: $" ++ Js.number_to_string amount ++ ")"
  | None => EmptyString
  end.

Definition dueSuffix (goal : Goal) : string :=
  match target_date goal with
  | Some date =>
      if String.eqb date EmptyString then EmptyString
      else " (Due: " ++ date ++ ")"
  | None => EmptyString
  end.

Definition descriptionLine (goal : Goal) : string :=
  match description goal with
  | Some text =>
      if String.eqb text EmptyString then EmptyString
      else nl ++ "   Description: " ++ text
  | None => EmptyString
  end.

(** The entry of the goal that carries number [n]. *)
Definition goalItem (n : nat) (goal : Goal) : string :=
  nl ++ decimal (Z.of_nat n) ++ ". " ++ title goal
    ++ targetSuffix goal ++ dueSuffix goal ++ nl ++
  "   Status: " ++ shown_text (status goal) "active" ++ nl ++
  "   Priority: " ++ shown_text (priority goal) "medium"
    ++ descriptionLine goal.

(** The text between the identity block and the closing instruction. *)
Definition creditPart (creditInfo : option CreditInfo) : string :=
  match creditInfo with
  | Some c => creditBlock c
  | None => EmptyString
  end.

Definition goalPart (goals : option (list Goal)) : string :=
  match goals with
  | Some (g :: gs) =>
      nl ++ nl ++ "Financial Goals:"
         ++ join (map (fun item => goalItem (fst item) (snd item)) (numbered (g :: gs)))
  | _ => EmptyString
  end.

(** ** How a run is described *)

(** The user the request is served for: the method is not OPTIONS, the
    API key is set and [getUser] gave a user and no error. *)
Definition authenticated (w : World) : option User :=
  if String.eqb (method w) "OPTIONS" then None
  else
    match OPEN_AI_API_KEY w with
    | Some key =>
        if String.eqb key EmptyString then None
        else
          match auth_error w, auth_user w with
          | None, Some user => Some user
          | _, _ => None
          end
    | None => None
    end.

(** The [message] read from a body that parses and can be destructured. *)
Definition utterance (w : World) : option value :=
  match req_json w with
  | Some parsed =>
      match get (Some parsed) (Name "message") with
      | inr message => Some message
      | inl _ => None
      end
  | None => None
  end.

(** The reply of a provider call that succeeds: a success status and a
    JSON body from which [choices[0].message.content] can be read. *)
Definition provider_reply (w : World) : option value :=
  match fetch w with
  | Responds r =>
      if ok r then
        match resp_json r with
        | Some data =>
            match reply_content data with
            | inr aiResponse => Some aiResponse
            | inl _ => None
            end
        | None => None
        end
      else None
  | Rejects => None
  end.


(** A store grown by rows, console lines and calls. *)
Definition grow (s : Store) (rows : list Row) (logs : list LogLine)
    (cs : list Call) : Store :=
  {| chat_history := chat_history s ++ rows;
     console := console s ++ logs;
     calls := calls s ++ cs |}.

(** [Runs m r rows logs cs]: from any store, [m] ends in [r] and leaves
    the store grown by exactly [rows], [logs] and [cs]. *)
Definition Runs {A} (m : M A) (r : thrown + A) (rows : list Row)
    (logs : list LogLine) (cs : list Call) : Prop :=
  forall s, m s = (r, grow s rows logs cs).

(** The same request against other insert outcomes. *)
Definition with_insert_error (w : World) (f : Row -> option PgError) : World :=
  {| method := method w;
     OPEN_AI_API_KEY := OPEN_AI_API_KEY w;
     auth_user := auth_user w;
     auth_error := auth_error w;
     profiles_row := profiles_row w;
     profiles_error := profiles_error w;
     credit_info_row := credit_info_row w;
     credit_info_error := credit_info_error w;
     financial_goals_rows := financial_goals_rows w;
     financial_goals_error := financial_goals_error w;
     req_json := req_json w;
     fetch := fetch w;
     insert_error := f |}.

(** The same request against another provider answer. *)
Definition with_fetch (w : World) (f : FetchResult) : World :=
  {| method := method w;
     OPEN_AI_API_KEY := OPEN_AI_API_KEY w;
     auth_user := auth_user w;
     auth_error := auth_error w;
     profiles_row := profiles_row w;
     profiles_error := profiles_error w;
     credit_info_row := credit_info_row w;
     credit_info_error := credit_info_error w;
     financial_goals_rows := financial_goals_rows w;
     financial_goals_error := financial_goals_error w;
     req_json := req_json w;
     fetch := f;
     insert_error := insert_error w |}.

(** The console lines of [readState]. *)
Definition readStateLog (w : World) : list LogLine :=
  (if is_some (profiles_error w)
   then [ConsoleError "Profile error:" (Failure (profiles_error w))] else [])
  ++ (match credit_info_error w with
      | Some creditError =>
          if String.eqb (code creditError) "PGRST116" then []
          else [ConsoleError "Credit info error:" (Failure (credit_info_error w))]
      | None => []
      end)
  ++ (if is_some (financial_goals_error w)
      then [ConsoleError "Goals error:" (Failure (financial_goals_error w))] else []).

(** The calls made up to and including the body read. *)
Definition readCalls : list Call :=
  [GetUser; Select "profiles"; Select "credit_info"; Select "financial_goals"; ReqJson].

(** The prompt the handler builds for a request. *)
Definition promptOf (w : World) : string :=
  systemPrompt (profiles_row w) (credit_info_row w) (financial_goals_rows w).

(** The rows an insert adds: the row itself when there is no error. *)
Definition stored (w : World) (row : Row) : list Row :=
  match insert_result w row with
  | Some _ => []
  | None => [row]
  end.

(** The console line of a failed insert. *)
Definition insertLog (label : string) (w : World) (row : Row) : list LogLine :=
  match insert_result w row with
  | Some e => [ConsoleError label (Failure (Some e))]
  | None => []
  end.

(** The error thrown for a non-success status. *)
Definition statusError (r : ProviderResponse) : thrown :=
  Error ("OpenAI API error: " ++ decimal (resp_status r)).


(** The console lines written before the provider is called. *)
Definition preludeLog (w : World) (user : User) (message : value) : list LogLine :=
  [ConsoleLog "User authenticated:" (Text (id user))]
  ++ readStateLog w
  ++ [ConsoleLog "User message:" (Value message);
      ConsoleLog "System prompt created" NoDetail].

(** The console line of the [catch] block. *)
Definition catchLog (e : thrown) : list LogLine :=
  [ConsoleError "Error in chat-with-ai function:" (Thrown e)].

(** The same request with another body. *)
Definition with_body (w : World) (b : option json) : World :=
  {| method := method w;
     OPEN_AI_API_KEY := OPEN_AI_API_KEY w;
     auth_user := auth_user w;
     auth_error := auth_error w;
     profiles_row := profiles_row w;
     profiles_error := profiles_error w;
     credit_info_row := credit_info_row w;
     credit_info_error := credit_info_error w;
     financial_goals_rows := financial_goals_rows w;
     financial_goals_error := financial_goals_error w;
     req_json := b;
     fetch := fetch w;
     insert_error := insert_error w |}.

(** ** Sample requests *)

Definition ana : Profile :=
  {| first_name := Some "Ana"; last_name := None; age := None; email := None |}.

Definition house : Goal :=
  {| title := "Buy a house"; description := None; target_amount := Some 40000000;
     target_date := None; priority := Some "high"; status := Some "active" |}.

(** A completion payload whose reply object is [reply]. *)
Definition completion (reply : json) : json :=
  JObj [("id", JStr "chatcmpl-1");
        ("choices", JArr [JObj [("index", JNum "0"); ("message", reply)]])].

Definition assistant (content : string) : json :=
  JObj [("role", JStr "assistant"); ("content", JStr content)].

Definition ana_asks : World :=
  {| method := "POST";
     OPEN_AI_API_KEY := Some "sk-test";
     auth_user := Some {| id := "user-1" |};
     auth_error := None;
     profiles_row := Some ana;
     profiles_error := None;
     credit_info_row := None;
     credit_info_error := Some {| code := "PGRST116"; details := "no rows" |};
     financial_goals_rows := Some [house];
     financial_goals_error := None;
     req_json := Some (JObj [("message", JStr "How much should I save monthly?")]);
     fetch := Responds {| resp_status := 200;
                          resp_text := "{ ... }";
                          resp_json := Some (completion (assistant "Save 10%."));
                          resp_json_error := EmptyString |};
     insert_error := fun _ => None |}.

Definition user_1 : User := {| id := "user-1" |}.

Definition question : value := Some (JStr "How much should I save monthly?").

Definition advice : value := Some (JStr "Save 10%.").

(** The double quote. *)
Definition quote : string := String (ascii_of_nat 34) EmptyString.

(** The message of the SyntaxError that JSON parsing raises on a text
    whose first character cannot start a JSON value: the character,
    then the text in quotes, cut after ten characters when it has more
    than twenty. *)
Definition unexpected_token (text : string) : string :=
  "Unexpected token '" ++ substring 0 1 text ++ "', " ++ quote
    ++ (if Nat.ltb (String.length text) 21 then text ++ quote
        else substring 0 10 text ++ quote ++ "...")
    ++ " is not valid JSON".

(** The provider answers 503 with an error body. *)
Definition overloaded (text : string) : ProviderResponse :=
  {| resp_status := 503; resp_text := text; resp_json := None;
     resp_json_error := unexpected_token text |}.

(** The provider answers 200 with a body of plain text. *)
Definition not_json (text : string) : ProviderResponse :=
  {| resp_status := 200; resp_text := text; resp_json := None;
     resp_json_error := unexpected_token text |}.

Definition bad_gateway : World := with_fetch ana_asks (Responds (not_json "Bad Gateway")).

Definition service_down : World := with_fetch ana_asks (Responds (not_json "Service down")).

Definition provider_down : World :=
  with_fetch ana_asks (Responds (overloaded "upstream overloaded")).





(** The request arrives without a body. *)
Definition no_body : World := with_body ana_asks None.

Definition storage_down : PgError :=
  {| code := "57P03"; details := "cannot connect now" |}.

(** A recorder that always fails. *)
Definition recorder_down (row : Row) : option PgError := Some storage_down.

(** A recorder that refuses the user's message only. *)
Definition user_row_refused (row : Row) : option PgError :=
  if is_user_message row then Some storage_down else None.

(** A user without debt: zero debt and zero utilization are stored. *)
Definition debt_free : CreditInfo :=
  {| credit_score := Some 720; total_debt := Some 0;
     late_payments := None; credit_utilization := Some 0 |}.

(** A goal whose target amount is zero. *)
Definition clear_the_card : Goal :=
  {| title := "Clear the card balance"; description := None; target_amount := Some 0;
     target_date := Some "2026-01-31"; priority := None; status := None |}.

(** ** Every way a request can end *)

(** The API key is set: present and not the empty text. *)
Definition keySet (w : World) : bool :=
  match OPEN_AI_API_KEY w with
  | Some key => negb (String.eqb key EmptyString)
  | None => false
  end.

(** The user [getUser] resolves: a user and no error. *)
Definition currentUser (w : World) : option User :=
  match auth_error w, auth_user w with
  | None, Some user => Some user
  | _, _ => None
  end.

(** What the body read ends in: the message, or what is thrown. *)
Definition bodyOutcome (w : World) : thrown + value :=
  match req_json w with
  | Some parsed => get (Some parsed) (Name "message")
  | None => inl SyntaxError
  end.

(** What the provider call ends in: the reply, or what is thrown. *)
Definition providerOutcome (w : World) : thrown + value :=
  match fetch w with
  | Responds r =>
      if ok r then
        match resp_json r with
        | Some data => reply_content data
        | None => inl (ResponseSyntaxError (resp_json_error r))
        end
      else inl (statusError r)
  | Rejects => inl TypeError
  end.

(** The console lines of the provider call. *)
Definition providerLog (w : World) : list LogLine :=
  match fetch w with
  | Responds r =>
      if ok r then
        match providerOutcome w with
        | inr _ => [ConsoleLog "AI response generated" NoDetail]
        | inl _ => []
        end
      else [ConsoleError "OpenAI API error:" (Text (resp_text r))]
  | Rejects => []
  end.

(** A response with what the run added to the store. *)
Record Outcome : Type := {
  out_response : Http.Response;
  out_rows : list Row;
  out_logs : list LogLine;
  out_calls : list Call
}.

Definition failed (e : thrown) (logs : list LogLine) (cs : list Call) : Outcome :=
  {| out_response := failure e;
     out_rows := [];
     out_logs := logs ++ catchLog e;
     out_calls := cs |}.

(** The outcome of a request, by the first step that stops it. *)
Definition outcome (w : World) : Outcome :=
  if String.eqb (method w) "OPTIONS" then
    {| out_response := preflight; out_rows := []; out_logs := []; out_calls := [] |}
  else if negb (keySet w) then
    failed (Error "OPEN_AI_API_KEY is not set") [] []
  else
    match currentUser w with
    | None =>
        failed (Error "User not authenticated")
               [ConsoleError "User error:" (Auth (auth_error w))] [GetUser]
    | Some user =>
        match bodyOutcome w with
        | inl e =>
            failed e
                   ([ConsoleLog "User authenticated:" (Text (id user))] ++ readStateLog w)
                   readCalls
        | inr message =>
            match providerOutcome w with
            | inl e =>
                failed e (preludeLog w user message ++ providerLog w)
                       (readCalls ++ [Fetch (promptOf w) message])
            | inr aiResponse =>
                {| out_response := success aiResponse;
                   out_rows := stored w (userRow user message)
                               ++ stored w (aiRow user aiResponse);
                   out_logs :=
                     preludeLog w user message
                     ++ [ConsoleLog "AI response generated" NoDetail]
                     ++ insertLog "Error saving user message:" w (userRow user message)
                     ++ insertLog "Error saving AI message:" w (aiRow user aiResponse)
                     ++ [ConsoleLog "Messages saved to chat history" NoDetail];
                   out_calls :=
                     readCalls ++ [Fetch (promptOf w) message;
                                   Insert (userRow user message);
                                   Insert (aiRow user aiResponse)] |}
            end
        end
    end.

(** The same request when the three reads report other errors. *)
Definition with_read_errors (w : World)
    (profileError creditError goalsError : option PgError) : World :=
  {| method := method w;
     OPEN_AI_API_KEY := OPEN_AI_API_KEY w;
     auth_user := auth_user w;
     auth_error := auth_error w;
     profiles_row := profiles_row w;
     profiles_error := profileError;
     credit_info_row := credit_info_row w;
     credit_info_error := creditError;
     financial_goals_rows := financial_goals_rows w;
     financial_goals_error := goalsError;
     req_json := req_json w;
     fetch := fetch w;
     insert_error := insert_error w |}.

(** The same request under another method. *)
Definition with_method (w : World) (m : string) : World :=
  {| method := m;
     OPEN_AI_API_KEY := OPEN_AI_API_KEY w;
     auth_user := auth_user w;
     auth_error := auth_error w;
     profiles_row := profiles_row w;
     profiles_error := profiles_error w;
     credit_info_row := credit_info_row w;
     credit_info_error := credit_info_error w;
     financial_goals_rows := financial_goals_rows w;
     financial_goals_error := financial_goals_error w;
     req_json := req_json w;
     fetch := fetch w;
     insert_error := insert_error w |}.

(** The same deployment with another API key. *)
Definition with_key (w : World) (k : option string) : World :=
  {| method := method w;
     OPEN_AI_API_KEY := k;
     auth_user := auth_user w;
     auth_error := auth_error w;
     profiles_row := profiles_row w;
     profiles_error := profiles_error w;
     credit_info_row := credit_info_row w;
     credit_info_error := credit_info_error w;
     financial_goals_rows := financial_goals_rows w;
     financial_goals_error := financial_goals_error w;
     req_json := req_json w;
     fetch := fetch w;
     insert_error := insert_error w |}.

(** The same request when [getUser] answers otherwise. *)
Definition with_auth (w : World) (user : option User) (error : option string) : World :=
  {| method := method w;
     OPEN_AI_API_KEY := OPEN_AI_API_KEY w;
     auth_user := user;
     auth_error := error;
     profiles_row := profiles_row w;
     profiles_error := profiles_error w;
     credit_info_row := credit_info_row w;
     credit_info_error := credit_info_error w;
     financial_goals_rows := financial_goals_rows w;
     financial_goals_error := financial_goals_error w;
     req_json := req_json w;
     fetch := fetch w;
     insert_error := insert_error w |}.

(** A profile row all of whose columns are null. *)
Definition blank_profile : Profile :=
  {| first_name := None; last_name := None; age := None; email := None |}.

(** A column of the profile row, null when there is no row. *)
Definition column {A} (profile : option Profile) (f : Profile -> option A) : option A :=
  match profile with
  | Some p => f p
  | None => None
  end.

(** ** More sample requests *)

Definition preflight_request : World := with_method ana_asks "OPTIONS".

Definition key_unset : World := with_key ana_asks None.

Definition signed_out : World := with_auth ana_asks None (Some "invalid JWT").

(** The provider cannot be reached. *)
Definition offline : World := with_fetch ana_asks Rejects.

(** The body is the JSON text [null]. *)
Definition null_body : World := with_body ana_asks (Some JNull).

(** The body is the JSON text [{}]. *)
Definition empty_body : World := with_body ana_asks (Some (JObj [])).

(** A 200 answer whose [content] is null. *)
Definition with_null_content : ProviderResponse :=
  {| resp_status := 200;
     resp_text := "{ ... }";
     resp_json := Some (completion (JObj [("role", JStr "assistant");
                                         ("content", JNull)]));
     resp_json_error := EmptyString |}.

Definition content_null : World := with_fetch ana_asks (Responds with_null_content).

(** A recorder that refuses the assistant's reply only. *)
Definition ai_row_refused (row : Row) : option PgError :=
  if is_user_message row then None else Some storage_down.

Definition read_failure : PgError :=
  {| code := "08006"; details := "connection failure" |}.

(** ** The chat page (src/pages/Chat.tsx, lines 62-131) *)

(** A message as the page shows it. *)
Module ChatMessage.

Record t : Type := {
  id : string;
  message : value;
  is_user_message : bool;
  timestamp : string
}.

End ChatMessage.

(** The state of the page's hooks that [sendMessage] reads and sets. *)
Record Page : Type := {
  messages : list ChatMessage.t;
  newMessage : string;
  loading : bool
}.

(** The page, the backend it talks to (the table and the edge
    function's console and calls) and the browser console. *)
Record App : Type := {
  page : Page;
  backend : Store;
  browser_console : list LogLine
}.

(** The clock readings of one [sendMessage]: [Date.now()] and
    [new Date().toISOString()] when the user's message is shown and
    when the answer is shown. *)
Record Clock : Type := {
  now_sent : Z;
  iso_sent : string;
  now_answered : Z;
  iso_answered : string
}.

(** The text shown when the call to the edge function fails. *)
Definition fallbackText : string :=
  "I'm here to help with your financial goals! I can provide advice on budgeting, credit improvement, debt management, and reaching your financial milestones. What would you like to discuss?".

(** The row the page writes for a message. *)
Definition pageRow (user : User) (text : string) (isUserMessage : bool) : Row :=
  {| user_id := id user; message := Some (JStr text); is_user_message := isUserMessage |}.

(** Lines 62-78: nothing without a signed-in user; otherwise one
    insert, whose error is caught and written to the console. *)
Definition saveMessage (w : World) (user : option User) (text : string)
    (isUserMessage : bool) (a : App) : App :=
  match user with
  | None => a
  | Some u =>
      match insert_result w (pageRow u text isUserMessage) with
      | None =>
          {| page := page a;
             backend := grow (backend a) [pageRow u text isUserMessage] [] [];
             browser_console := browser_console a |}
      | Some e =>
          {| page := page a;
             backend := backend a;
             browser_console :=
               browser_console a
               ++ [ConsoleError "Error saving message:" (Failure (Some e))] |}
      end
  end.

(** The request [supabase.functions.invoke('chat-with-ai', { body:
    { message } })] sends: a POST whose body is that object. *)
Definition chatRequest (w : World) (userMessage : string) : World :=
  with_body (with_method w "POST") (Some (JObj [("message", JStr userMessage)])).

(** What [invoke] resolves to: [data.response] of a 2xx answer, or an
    error. *)
Inductive Invoked : Type :=
| Data (response : value)
| InvokeError.

(** The call of the edge function. [relayed] is false when the request
    does not reach the function; a reached function runs [serve]. A
    status outside 200-299 is an error. *)
Definition functions_invoke (w : World) (relayed : bool) (userMessage : string)
    (store : Store) : Invoked * Store :=
  if relayed then
    match serve (chatRequest w userMessage) store with
    | (inr resp, store') =>
        if (200 <=? Http.status resp) && (Http.status resp <=? 299) then
          (Data (match Http.body resp with
                 | Http.ResponseJson response => response
                 | _ => undefined
                 end), store')
        else (InvokeError, store')
    | (inl _, store') => (InvokeError, store')
    end
  else (InvokeError, store).

Definition show_message (m : ChatMessage.t) (a : App) : App :=
  {| page := {| messages := messages (page a) ++ [m];
                newMessage := newMessage (page a);
                loading := loading (page a) |};
     backend := backend a;
     browser_console := browser_console a |}.

Definition setNewMessage (text : string) (a : App) : App :=
  {| page := {| messages := messages (page a);
                newMessage := text;
                loading := loading (page a) |};
     backend := backend a;
     browser_console := browser_console a |}.

Definition setLoading (b : bool) (a : App) : App :=
  {| page := {| messages := messages (page a);
                newMessage := newMessage (page a);
                loading := b |};
     backend := backend a;
     browser_console := browser_console a |}.

Definition with_backend (store : Store) (a : App) : App :=
  {| page := page a; backend := store; browser_console := browser_console a |}.

(** Lines 80-131, run to its end with no other update of the page in
    between. [trim] is String.prototype.trim. *)
Definition sendMessage (trim : string -> string) (w : World) (relayed : bool)
    (clock : Clock) (user : option User) (a : App) : App :=
  if String.eqb (trim (newMessage (page a))) EmptyString || loading (page a) then a
  else
    let userMessage := trim (newMessage (page a)) in
    let a := setNewMessage EmptyString a in
    let a := setLoading true a in
    let userMsg :=
      {| ChatMessage.id := decimal (now_sent clock);
         ChatMessage.message := Some (JStr userMessage);
         ChatMessage.is_user_message := true;
         ChatMessage.timestamp := iso_sent clock |} in
    let a := show_message userMsg a in
    let a := saveMessage w user userMessage true a in
    let a :=
      match functions_invoke w relayed userMessage (backend a) with
      | (Data response, store) =>
          let aiMsg :=
            {| ChatMessage.id := decimal (now_answered clock + 1);
               ChatMessage.message := response;
               ChatMessage.is_user_message := false;
               ChatMessage.timestamp := iso_answered clock |} in
          show_message aiMsg (with_backend store a)
      | (InvokeError, store) =>
          let a := with_backend store a in
          let a :=
            {| page := page a;
               backend := backend a;
               browser_console :=
                 browser_console a ++ [ConsoleError "Error sending message:" NoDetail] |} in
          let errorMsg :=
            {| ChatMessage.id := decimal (now_answered clock + 1);
               ChatMessage.message := Some (JStr fallbackText);
               ChatMessage.is_user_message := false;
               ChatMessage.timestamp := iso_answered clock |} in
          let a := show_message errorMsg a in
          saveMessage w user fallbackText false a
      end in
    setLoading false a.

(** A page with the question typed in, over an empty table. *)
Definition typed_question : App :=
  {| page := {| messages := [];
                newMessage := "How much should I save monthly?";
                loading := false |};
     backend := empty_store;
     browser_console := [] |}.

Definition noon : Clock :=
  {| now_sent := 1767268800000; iso_sent := "2026-01-01T12:00:00.000Z";
     now_answered := 1767268802500; iso_answered := "2026-01-01T12:00:02.500Z" |}.

(** [trim] on a text without surrounding white space. *)
Definition trimmed (text : string) : string := text.

(** ** Facts about text *)

Lemma append_assoc (a b c : string) : (a ++ b) ++ c = a ++ b ++ c.
Proof.
  induction a as [| ch a IH]; simpl.
  - reflexivity.
  - now rewrite IH.
Qed.

Lemma append_empty_r (a : string) : a ++ EmptyString = a.
Proof.
  induction a as [| ch a IH]; simpl; [reflexivity | now rewrite IH].
Qed.

Lemma Contains_prefix (t rest : string) : Contains (t ++ rest) t.
Proof. exists EmptyString, rest. reflexivity. Qed.

Lemma Contains_suffix (front t : string) : Contains (front ++ t) t.
Proof. exists front, EmptyString. now rewrite append_empty_r. Qed.

Lemma Contains_middle (front t rest : string) : Contains (front ++ t ++ rest) t.
Proof. exists front, rest. reflexivity. Qed.

(** ** Facts about numbers in a template *)

Lemma magnitude_of_int (m : Z) :
  Js.magnitude_to_string (100 * m) = Js.integer_to_string m.
Proof.
  unfold Js.magnitude_to_string.
  rewrite (Z.mul_comm 100 m), Z.div_mul, Z.mod_mul by lia.
  simpl. apply append_empty_r.
Qed.

Lemma number_to_string_of_int (n : Z) :
  Js.number_to_string (Js.of_int n) = decimal n.
Proof.
  unfold Js.number_to_string, Js.of_int, decimal.
  destruct (Z.ltb_spec (100 * n) 0) as [Hneg | Hpos].
  - replace (- (100 * n)) with (100 * (- n)) by lia.
    rewrite magnitude_of_int. unfold Js.integer_to_string.
    destruct n as [| q | q]; try lia. reflexivity.
  - now rewrite magnitude_of_int.
Qed.

Lemma truthy_int (column : option Z) :
  Js.truthy (Js.int column) =
  match column with Some v => negb (v =? 0) | None => false end.
Proof.
  destruct column as [v |]; simpl; [| reflexivity].
  unfold Js.of_int. f_equal.
  destruct (Z.eqb_spec v 0) as [-> | Hv]; [reflexivity |].
  apply Z.eqb_neq. lia.
Qed.

Lemma or_int (column : option Z) (fallback : string) :
  Js.to_string (Js.or (Js.int column) (Js.PStr fallback)) = shown column decimal fallback.
Proof.
  unfold Js.or. rewrite truthy_int.
  destruct column as [v |]; simpl; [| reflexivity].
  destruct (v =? 0); simpl; [reflexivity | apply number_to_string_of_int].
Qed.

Lemma or_dec (column : option Z) (fallback : string) :
  Js.to_string (Js.or (Js.dec column) (Js.PStr fallback))
  = shown column Js.number_to_string fallback.
Proof.
  unfold Js.or.
  destruct column as [v |]; simpl; [| reflexivity].
  destruct (v =? 0); reflexivity.
Qed.

Lemma or_text (column : option string) (fallback : string) :
  Js.to_string (Js.or (Js.text column) (Js.PStr fallback)) = shown_text column fallback.
Proof.
  unfold Js.or.
  destruct column as [t |]; simpl; [| reflexivity].
  destruct (String.eqb t EmptyString); reflexivity.
Qed.

Lemma or_late_payments (column : option Z) :
  Js.to_string (Js.or (Js.int column) (Js.PNum (Js.of_int 0)))
  = match column with Some n => decimal n | None => "0" end.
Proof.
  unfold Js.or. rewrite truthy_int.
  destruct column as [v |]; simpl; [| reflexivity].
  destruct (Z.eqb_spec v 0) as [-> | Hv]; simpl;
    [reflexivity | apply number_to_string_of_int].
Qed.

(** ** Facts about the goal loop *)

Lemma goalEntry_item (index : nat) (goal : Goal) :
  goalEntry index goal ++ goalDescription goal = goalItem (S index) goal.
Proof.
  unfold goalEntry, goalDescription, goalItem, targetSuffix, dueSuffix, descriptionLine.
  rewrite number_to_string_of_int, !or_text.
  replace (Z.of_nat index + 1) with (Z.of_nat (S index)) by lia.
  destruct (target_amount goal) as [amount |], (target_date goal) as [date |],
           (description goal) as [text |]; simpl Js.truthy; simpl Js.to_string;
    repeat match goal with
           | |- context [(?a =? 0)%Z] => destruct (a =? 0)%Z
           | |- context [String.eqb ?a EmptyString] => destruct (String.eqb a EmptyString)
           end;
    simpl negb; cbv iota; rewrite ?append_assoc; simpl; rewrite ?append_assoc;
    reflexivity.
Qed.

Lemma forEach_join (goals : list Goal) (index : nat) (prompt : string) :
  forEach goals index prompt
  = prompt ++ join (map (fun item => goalItem (fst item) (snd item))
                        (combine (seq (S index) (List.length goals)) goals)).
Proof.
  revert index prompt.
  induction goals as [| goal rest IH]; intros index prompt;
    cbn [forEach List.length seq combine map join fold_right fst snd].
  - symmetry. apply append_empty_r.
  - rewrite IH. unfold goalCallback.
    rewrite <- goalEntry_item.
    now rewrite !append_assoc.
Qed.

Lemma numbered_from {A} (l : list A) (start : nat) :
  map fst (combine (seq start (List.length l)) l) = seq start (List.length l)
  /\ map snd (combine (seq start (List.length l)) l) = l.
Proof.
  revert start. induction l as [| x l IH]; intros start; simpl.
  - split; reflexivity.
  - destruct (IH (S start)) as [Hfst Hsnd]. now rewrite Hfst, Hsnd.
Qed.

(** The prompt is the identity block, the credit part, the goal part
    and the closing instruction, in that order. *)
Lemma systemPrompt_parts (profile : option Profile) (creditInfo : option CreditInfo)
    (goals : option (list Goal)) :
  systemPrompt profile creditInfo goals
  = identityBlock profile ++ creditPart creditInfo ++ goalPart goals
      ++ nl ++ nl ++ closing.
Proof.
  unfold systemPrompt, creditPart, goalPart, numbered.
  destruct creditInfo as [c |], goals as [[| g gs] |];
    rewrite ?forEach_join, ?append_assoc; simpl; rewrite ?append_assoc; reflexivity.
Qed.

(** ** Facts about runs *)

Lemma grow_nothing (s : Store) : grow s [] [] [] = s.
Proof. destruct s. unfold grow. simpl. now rewrite !app_nil_r. Qed.

Lemma grow_grow (s : Store) rows logs cs rows' logs' cs' :
  grow (grow s rows logs cs) rows' logs' cs'
  = grow s (rows ++ rows') (logs ++ logs') (cs ++ cs').
Proof. unfold grow. simpl. now rewrite !app_assoc. Qed.

Section Runs.

Context {A B : Type}.

Lemma Runs_ret (a : A) : Runs (ret a) (inr a) [] [] [].
Proof. intros s. unfold ret. now rewrite grow_nothing. Qed.

Lemma Runs_throw (e : thrown) : Runs (@throw A e) (inl e) [] [] [].
Proof. intros s. unfold throw. now rewrite grow_nothing. Qed.

Lemma Runs_lift (r : thrown + A) : Runs (lift r) r [] [] [].
Proof. intros s. unfold lift. now rewrite grow_nothing. Qed.

Lemma Runs_bind (m : M A) (f : A -> M B) a r rows logs cs rows' logs' cs' :
  Runs m (inr a) rows logs cs ->
  Runs (f a) r rows' logs' cs' ->
  Runs (bind m f) r (rows ++ rows') (logs ++ logs') (cs ++ cs').
Proof.
  intros Hm Hf s. unfold bind. now rewrite Hm, Hf, grow_grow.
Qed.

Lemma Runs_bind_throw (m : M A) (f : A -> M B) e rows logs cs :
  Runs m (inl e) rows logs cs ->
  Runs (bind m f) (inl e) rows logs cs.
Proof.
  intros Hm s. unfold bind. now rewrite Hm.
Qed.

Lemma Runs_catch (m : M A) (handler : thrown -> M A) e r rows logs cs rows' logs' cs' :
  Runs m (inl e) rows logs cs ->
  Runs (handler e) r rows' logs' cs' ->
  Runs (try_catch m handler) r (rows ++ rows') (logs ++ logs') (cs ++ cs').
Proof.
  intros Hm Hh s. unfold try_catch. now rewrite Hm, Hh, grow_grow.
Qed.

Lemma Runs_no_catch (m : M A) (handler : thrown -> M A) a rows logs cs :
  Runs m (inr a) rows logs cs ->
  Runs (try_catch m handler) (inr a) rows logs cs.
Proof.
  intros Hm s. unfold try_catch. now rewrite Hm.
Qed.

Lemma Runs_eq (m : M A) r rows logs cs rows' logs' cs' :
  Runs m r rows logs cs ->
  rows = rows' -> logs = logs' -> cs = cs' ->
  Runs m r rows' logs' cs'.
Proof. now intros H -> -> ->. Qed.

End Runs.

Lemma Runs_console_log (label : string) (d : Detail) :
  Runs (console_log label d) (inr tt) [] [ConsoleLog label d] [].
Proof. intros s. unfold console_log, grow. now rewrite !app_nil_r. Qed.

Lemma Runs_console_error (label : string) (d : Detail) :
  Runs (console_error label d) (inr tt) [] [ConsoleError label d] [].
Proof. intros s. unfold console_error, grow. now rewrite !app_nil_r. Qed.

Lemma Runs_call (c : Call) : Runs (call c) (inr tt) [] [] [c].
Proof. intros s. unfold call, grow. now rewrite !app_nil_r. Qed.

Lemma Runs_insert (w : World) (row : Row) :
  Runs (insert w row) (inr (insert_result w row)) (stored w row) [] [Insert row].
Proof.
  intros s. unfold insert, bind, call, stored, grow.
  destruct (insert_result w row); unfold ret; simpl; now rewrite ?app_nil_r.
Qed.

(** Facts at hand about what the world answers. *)
Ltac use_answers :=
  cbv beta;
  repeat match goal with
         | H : ?l = _ |- context [?l] => rewrite H
         end;
  cbv beta iota; unfold when; simpl negb; simpl is_some; cbv beta iota.

(** One step of a run: the first command that applies. *)
Ltac run_step :=
  use_answers;
  first
    [ apply Runs_ret
    | apply Runs_throw
    | apply Runs_lift
    | apply Runs_console_log
    | apply Runs_console_error
    | apply Runs_call
    | apply Runs_insert
    | eapply Runs_bind; [ first [ apply Runs_ret | apply Runs_lift
                                | apply Runs_console_log | apply Runs_console_error
                                | apply Runs_call | apply Runs_insert ] | ]
    | eapply Runs_bind_throw; first [ apply Runs_throw | apply Runs_lift ]
    | eapply Runs_bind_throw;
      eapply Runs_bind; [ apply Runs_console_error | apply Runs_throw ] ].

Ltac run := eapply Runs_eq; [ repeat run_step | .. ].

(** ** The phases of a turn *)

Lemma authenticated_method (w : World) (user : User) :
  authenticated w = Some user -> String.eqb (method w) "OPTIONS" = false.
Proof.
  unfold authenticated. now destruct (String.eqb (method w) "OPTIONS").
Qed.

Lemma authenticate_runs (w : World) (user : User) :
  authenticated w = Some user ->
  Runs (authenticate w) (inr user) []
       [ConsoleLog "User authenticated:" (Text (id user))] [GetUser].
Proof.
  unfold authenticated, authenticate.
  destruct (String.eqb (method w) "OPTIONS"); [discriminate |].
  destruct (OPEN_AI_API_KEY w) as [key |]; [| discriminate].
  simpl Js.truthy.
  destruct (String.eqb key EmptyString); [discriminate |].
  destruct (auth_error w), (auth_user w); try discriminate.
  intros [= ->]. run; reflexivity.
Qed.

Lemma readState_runs (w : World) :
  Runs (readState w)
       (inr (profiles_row w, credit_info_row w, financial_goals_rows w)) []
       (readStateLog w)
       [Select "profiles"; Select "credit_info"; Select "financial_goals"].
Proof.
  unfold readState, readStateLog.
  destruct (profiles_error w) as [e1 |], (credit_info_error w) as [e2 |],
           (financial_goals_error w) as [e3 |];
    try destruct (String.eqb (code e2) "PGRST116");
    run; reflexivity.
Qed.

Lemma parseBody_runs (w : World) (message : value) :
  utterance w = Some message ->
  Runs (parseBody w) (inr message) []
       [ConsoleLog "User message:" (Value message)] [ReqJson].
Proof.
  unfold utterance, parseBody.
  destruct (req_json w) as [parsed |]; [| discriminate].
  destruct (get (Some parsed) (Name "message")) as [e | m] eqn:Hget; [discriminate |].
  intros [= ->]. run; reflexivity.
Qed.

Lemma parseBody_rejects (w : World) :
  req_json w = None ->
  Runs (parseBody w) (inl SyntaxError) [] [] [ReqJson].
Proof.
  unfold parseBody. intros Hbody. run; reflexivity.
Qed.

Lemma invoke_runs (w : World) (prompt : string) (message aiResponse : value) :
  provider_reply w = Some aiResponse ->
  Runs (invoke w prompt message) (inr aiResponse) []
       [ConsoleLog "AI response generated" NoDetail] [Fetch prompt message].
Proof.
  unfold provider_reply, invoke.
  destruct (fetch w) as [| r]; [discriminate |].
  destruct (ok r) eqn:Hok; [| discriminate].
  destruct (resp_json r) as [data |] eqn:Hjson; [| discriminate].
  destruct (reply_content data) as [e | v] eqn:Hreply; [discriminate |].
  intros [= ->]. run; reflexivity.
Qed.

Lemma invoke_bad_status (w : World) (prompt : string) (message : value)
    (r : ProviderResponse) :
  fetch w = Responds r -> ok r = false ->
  Runs (invoke w prompt message) (inl (statusError r)) []
       [ConsoleError "OpenAI API error:" (Text (resp_text r))] [Fetch prompt message].
Proof.
  unfold invoke, statusError. intros Hfetch Hok.
  rewrite <- number_to_string_of_int.
  run; reflexivity.
Qed.

Lemma invoke_bad_payload (w : World) (prompt : string) (message : value)
    (r : ProviderResponse) (e : thrown) :
  fetch w = Responds r -> ok r = true ->
  match resp_json r with
  | Some data => reply_content data
  | None => inl (ResponseSyntaxError (resp_json_error r))
  end = inl e ->
  Runs (invoke w prompt message) (inl e) [] [] [Fetch prompt message].
Proof.
  unfold invoke. intros Hfetch Hok.
  destruct (resp_json r) as [data |] eqn:Hjson; intros He.
  - run; reflexivity.
  - injection He as <-. run; reflexivity.
Qed.

Lemma insert_error_logged (label : string) (w : World) (row : Row) :
  Runs (when (is_some (insert_result w row))
          (console_error label (Failure (insert_result w row))))
       (inr tt) [] (insertLog label w row) [].
Proof.
  unfold when, insertLog.
  destruct (insert_result w row); simpl;
    [apply Runs_console_error | apply Runs_ret].
Qed.

Lemma record_runs (w : World) (user : User) (message aiResponse : value) :
  Runs (record w user message aiResponse) (inr tt)
       (stored w (userRow user message) ++ stored w (aiRow user aiResponse))
       (insertLog "Error saving user message:" w (userRow user message)
        ++ insertLog "Error saving AI message:" w (aiRow user aiResponse)
        ++ [ConsoleLog "Messages saved to chat history" NoDetail])
       [Insert (userRow user message); Insert (aiRow user aiResponse)].
Proof.
  unfold record.
  eapply Runs_eq.
  - eapply Runs_bind; [apply Runs_insert |].
    eapply Runs_bind; [apply insert_error_logged |].
    eapply Runs_bind; [apply Runs_insert |].
    eapply Runs_bind; [apply insert_error_logged | apply Runs_console_log].
  - simpl. now rewrite app_nil_r.
  - reflexivity.
  - reflexivity.
Qed.

(** ** Whole turns *)

Lemma handler_runs (e : thrown) :
  Runs (console_error "Error in chat-with-ai function:" (Thrown e) ;; ret (failure e))
       (inr (failure e)) [] (catchLog e) [].
Proof. run; reflexivity. Qed.

(** A request whose body does not parse fails before the provider is
    called. *)
Lemma serve_fails_at_body (w : World) (user : User) :
  authenticated w = Some user ->
  req_json w = None ->
  Runs (serve w) (inr (failure SyntaxError)) []
       ([ConsoleLog "User authenticated:" (Text (id user))]
        ++ readStateLog w ++ catchLog SyntaxError)
       readCalls.
Proof.
  intros Hauth Hbody. unfold serve.
  rewrite (authenticated_method w user Hauth).
  eapply Runs_eq.
  - eapply Runs_catch; [| apply handler_runs].
    unfold turn.
    eapply Runs_bind; [apply (authenticate_runs w user Hauth) |].
    eapply Runs_bind; [apply readState_runs |].
    cbv beta iota.
    apply Runs_bind_throw. apply (parseBody_rejects w Hbody).
  - reflexivity.
  - simpl. now rewrite !app_nil_r.
  - reflexivity.
Qed.

(** A request that reaches the provider and whose call throws. *)
Lemma serve_fails_at_invoke (w : World) (user : User) (message : value)
    (e : thrown) (logs : list LogLine) :
  authenticated w = Some user ->
  utterance w = Some message ->
  Runs (invoke w (promptOf w) message) (inl e) [] logs [Fetch (promptOf w) message] ->
  Runs (serve w) (inr (failure e)) []
       (preludeLog w user message ++ logs ++ catchLog e)
       (readCalls ++ [Fetch (promptOf w) message]).
Proof.
  intros Hauth Hbody Hinvoke. unfold serve.
  rewrite (authenticated_method w user Hauth).
  eapply Runs_eq.
  - eapply Runs_catch; [| apply handler_runs].
    unfold turn.
    eapply Runs_bind; [apply (authenticate_runs w user Hauth) |].
    eapply Runs_bind; [apply readState_runs |].
    cbv beta iota.
    eapply Runs_bind; [apply (parseBody_runs w message Hbody) |].
    cbv beta zeta.
    eapply Runs_bind; [apply Runs_console_log |].
    apply Runs_bind_throw. exact Hinvoke.
  - reflexivity.
  - unfold preludeLog. simpl. rewrite <- !app_assoc. reflexivity.
  - reflexivity.
Qed.

(** A request whose provider call succeeds. *)
Lemma serve_succeeds (w : World) (user : User) (message aiResponse : value) :
  authenticated w = Some user ->
  utterance w = Some message ->
  provider_reply w = Some aiResponse ->
  Runs (serve w) (inr (success aiResponse))
       (stored w (userRow user message) ++ stored w (aiRow user aiResponse))
       (preludeLog w user message
        ++ [ConsoleLog "AI response generated" NoDetail]
        ++ insertLog "Error saving user message:" w (userRow user message)
        ++ insertLog "Error saving AI message:" w (aiRow user aiResponse)
        ++ [ConsoleLog "Messages saved to chat history" NoDetail])
       (readCalls ++ [Fetch (promptOf w) message;
                      Insert (userRow user message);
                      Insert (aiRow user aiResponse)]).
Proof.
  intros Hauth Hbody Hreply. unfold serve.
  rewrite (authenticated_method w user Hauth).
  eapply Runs_eq.
  - apply Runs_no_catch. unfold turn.
    eapply Runs_bind; [apply (authenticate_runs w user Hauth) |].
    eapply Runs_bind; [apply readState_runs |].
    cbv beta iota.
    eapply Runs_bind; [apply (parseBody_runs w message Hbody) |].
    cbv beta zeta.
    eapply Runs_bind; [apply Runs_console_log |].
    eapply Runs_bind; [apply (invoke_runs w _ message aiResponse Hreply) |].
    eapply Runs_bind; [apply record_runs | apply Runs_ret].
  - simpl. now rewrite app_nil_r.
  - unfold preludeLog. rewrite <- !app_assoc, !app_nil_r. reflexivity.
  - reflexivity.
Qed.

(** What a run leaves, read off a [Runs] fact. *)
Lemma Runs_response {A} (m : M A) r rows logs cs (s : Store) :
  Runs m r rows logs cs -> response_of (m s) = r.
Proof. intros H. unfold response_of. now rewrite H. Qed.

Lemma Runs_chat_history {A} (m : M A) r rows logs cs (s : Store) :
  Runs m r rows logs cs ->
  chat_history (store_of (m s)) = (chat_history s ++ rows)%list.
Proof. intros H. unfold store_of. now rewrite H. Qed.

Lemma Runs_console {A} (m : M A) r rows logs cs (s : Store) :
  Runs m r rows logs cs ->
  console (store_of (m s)) = (console s ++ logs)%list.
Proof. intros H. unfold store_of. now rewrite H. Qed.

Lemma Runs_calls {A} (m : M A) r rows logs cs (s : Store) :
  Runs m r rows logs cs ->
  calls (store_of (m s)) = (calls s ++ cs)%list.
Proof. intros H. unfold store_of. now rewrite H. Qed.




(** ** The prompt: claims C4, C5, C6 *)

(** C5. For every profile (or none), credit row (or none) and goal
    list (absent, empty or not), the synthesizer returns a text that is
    not empty, opens with the persona preamble and ends with the
    closing instruction; both therefore occur in it. *)
Theorem systemPrompt_total (profile : option Profile)
    (creditInfo : option CreditInfo) (goals : option (list Goal)) :
  systemPrompt profile creditInfo goals <> EmptyString
  /\ Contains (systemPrompt profile creditInfo goals) persona
  /\ Contains (systemPrompt profile creditInfo goals) closing
  /\ (exists rest, systemPrompt profile creditInfo goals = persona ++ rest)
  /\ (exists front, systemPrompt profile creditInfo goals = front ++ closing).
Proof.
  rewrite systemPrompt_parts.
  assert (Hfront : exists rest,
             identityBlock profile ++ creditPart creditInfo ++ goalPart goals
               ++ nl ++ nl ++ closing = persona ++ rest).
  { unfold identityBlock. rewrite !append_assoc. eexists. reflexivity. }
  assert (Hback : exists front,
             identityBlock profile ++ creditPart creditInfo ++ goalPart goals
               ++ nl ++ nl ++ closing = front ++ closing).
  { exists (identityBlock profile ++ creditPart creditInfo ++ goalPart goals ++ nl ++ nl).
    now rewrite !append_assoc. }
  repeat split.
  - destruct Hfront as [rest ->]. unfold persona. discriminate.
  - destruct Hfront as [rest ->]. apply Contains_prefix.
  - destruct Hback as [front ->]. apply Contains_suffix.
  - exact Hfront.
  - exact Hback.
Qed.

(** C4, as the code has it. For every credit row the credit block is
    emitted, and in it the credit score, the total debt and the
    utilization each show their value, or "Not provided" when that
    field is null or zero, each field on its own; a null late-payment
    count shows "0". *)
Theorem creditBlock_fields (profile : option Profile) (creditInfo : CreditInfo)
    (goals : option (list Goal)) :
  Contains (systemPrompt profile (Some creditInfo) goals) (creditBlock creditInfo)
  /\ creditBlock creditInfo
     = nl ++ nl ++ "Credit Information:" ++ nl ++
       "- Credit Score: "
         ++ shown (credit_score creditInfo) decimal "Not provided" ++ nl ++
       "- Total Debt: $"
         ++ shown (total_debt creditInfo) Js.number_to_string "Not provided" ++ nl ++
       "- Late Payments: "
         ++ match late_payments creditInfo with
            | Some count => decimal count
            | None => "0"
            end ++ nl ++
       "- Credit Utilization: "
         ++ shown (credit_utilization creditInfo) Js.number_to_string "Not provided"
         ++ "%".
Proof.
  split.
  - rewrite systemPrompt_parts. apply Contains_middle.
  - unfold creditBlock.
    now rewrite !or_int, !or_dec, or_late_payments.
Qed.

(** C4 fails as stated: a stored total debt of zero and a stored
    utilization of zero are not null, and the block shows
    "Not provided" for both. *)
Lemma creditBlock_zero_not_provided :
  total_debt debt_free = Some 0
  /\ credit_utilization debt_free = Some 0
  /\ creditBlock debt_free
     = nl ++ nl ++ "Credit Information:" ++ nl ++
       "- Credit Score: 720" ++ nl ++
       "- Total Debt: $Not provided" ++ nl ++
       "- Late Payments: 0" ++ nl ++
       "- Credit Utilization: Not provided%".
Proof. repeat split. Qed.

(** C6, as the code has it. A non-empty goal list [g1..gN] is listed
    after the "Financial Goals:" heading in the order given, the items
    numbered 1..N; an item carries the "(Target: $amount)" suffix iff
    its target amount is neither null nor zero, and the "(Due: date)"
    suffix iff its target date is neither null nor empty, each on its
    own. *)
Theorem goal_block_order (profile : option Profile) (creditInfo : option CreditInfo)
    (g : Goal) (gs : list Goal) :
  systemPrompt profile creditInfo (Some (g :: gs))
  = identityBlock profile ++ creditPart creditInfo
      ++ nl ++ nl ++ "Financial Goals:"
      ++ join (map (fun item => goalItem (fst item) (snd item)) (numbered (g :: gs)))
      ++ nl ++ nl ++ closing
  /\ map fst (numbered (g :: gs)) = seq 1 (List.length (g :: gs))
  /\ map snd (numbered (g :: gs)) = g :: gs
  /\ (forall goal, targetSuffix goal <> EmptyString <->
                   exists amount, target_amount goal = Some amount /\ amount <> 0)
  /\ (forall goal, dueSuffix goal <> EmptyString <->
                   exists date, target_date goal = Some date /\ date <> EmptyString).
Proof.
  split; [| split; [| split; [| split]]].
  - rewrite systemPrompt_parts. unfold goalPart. now rewrite !append_assoc.
  - apply (proj1 (numbered_from (g :: gs) 1)).
  - apply (proj2 (numbered_from (g :: gs) 1)).
  - intros goal. unfold targetSuffix.
    destruct (target_amount goal) as [amount |].
    + destruct (Z.eqb_spec amount 0) as [-> | Hnz]; split.
      * intros H. now contradiction H.
      * intros (a & [= <-] & Ha). now contradiction Ha.
      * intros _. now exists amount.
      * intros _. discriminate.
    + split; [intros H; now contradiction H | intros (a & Ha & _); discriminate].
  - intros goal. unfold dueSuffix.
    destruct (target_date goal) as [date |].
    + destruct (String.eqb_spec date EmptyString) as [-> | Hne]; split.
      * intros H. now contradiction H.
      * intros (d & [= <-] & Hd). now contradiction Hd.
      * intros _. now exists date.
      * intros _. discriminate.
    + split; [intros H; now contradiction H | intros (d & Hd & _); discriminate].
Qed.

(** C6 fails as stated: a goal whose target amount is zero has a target
    amount, and its item carries no "(Target: ...)" suffix. *)
Lemma goal_zero_target_no_suffix :
  target_amount clear_the_card = Some 0
  /\ systemPrompt None None (Some [clear_the_card])
     = identityBlock None
         ++ nl ++ nl ++ "Financial Goals:" ++ nl ++
         "1. Clear the card balance (Due: 2026-01-31)" ++ nl ++
         "   Status: active" ++ nl ++
         "   Priority: medium"
         ++ nl ++ nl ++ closing.
Proof. split; reflexivity. Qed.

(** ** The turn: claims C1, C2, C3 and C7 to C10 *)

(** C1. In a turn whose authentication, body parsing and provider call
    succeed and whose two inserts both succeed, exactly two rows are
    appended to [chat_history], the user's message (flag true) and then
    the assistant's reply (flag false), and the response carries the
    text read from [choices[0].message.content]. *)
Theorem successful_turn_records_both (w : World) (user : User)
    (message aiResponse : value) (s : Store) :
  authenticated w = Some user ->
  utterance w = Some message ->
  provider_reply w = Some aiResponse ->
  insert_result w (userRow user message) = None ->
  insert_result w (aiRow user aiResponse) = None ->
  response_of (serve w s)
    = inr {| Http.status := 200; Http.body := Http.ResponseJson aiResponse |}
  /\ chat_history (store_of (serve w s))
     = (chat_history s
        ++ [ {| user_id := id user; message := message; is_user_message := true |};
             {| user_id := id user; message := aiResponse; is_user_message := false |} ])%list.
Proof.
  intros Hauth Hbody Hreply Huser Hai.
  pose proof (serve_succeeds w user message aiResponse Hauth Hbody Hreply) as Hrun.
  split.
  - apply (Runs_response _ _ _ _ _ s Hrun).
  - rewrite (Runs_chat_history _ _ _ _ _ s Hrun).
    unfold stored. now rewrite Huser, Hai.
Qed.

Lemma successful_turn_records_both_witness :
  response_of (serve ana_asks empty_store)
    = inr {| Http.status := 200; Http.body := Http.ResponseJson advice |}
  /\ chat_history (store_of (serve ana_asks empty_store))
     = ([] ++ [ {| user_id := "user-1"; message := question; is_user_message := true |};
                {| user_id := "user-1"; message := advice; is_user_message := false |} ])%list.
Proof.
  apply (successful_turn_records_both ana_asks user_1 question advice empty_store);
    reflexivity.
Defined.

(** C2. In a turn in which the provider answers with a non-success
    status the response is the error response (status 500, the error
    text naming the status), no row is appended to [chat_history], and
    the last call made is the provider call: no insert is attempted. *)
Theorem provider_failure_is_fatal (w : World) (user : User) (message : value)
    (r : ProviderResponse) (s : Store) :
  authenticated w = Some user ->
  utterance w = Some message ->
  fetch w = Responds r ->
  ok r = false ->
  response_of (serve w s)
    = inr {| Http.status := 500;
             Http.body := Http.ErrorJson
                            (Message ("OpenAI API error: " ++ decimal (resp_status r))) |}
  /\ chat_history (store_of (serve w s)) = chat_history s
  /\ calls (store_of (serve w s))
     = (calls s ++ readCalls ++ [Fetch (promptOf w) message])%list.
Proof.
  intros Hauth Hbody Hfetch Hok.
  pose proof (serve_fails_at_invoke w user message _ _ Hauth Hbody
                (invoke_bad_status w (promptOf w) message r Hfetch Hok)) as Hrun.
  split; [| split].
  - apply (Runs_response _ _ _ _ _ s Hrun).
  - rewrite (Runs_chat_history _ _ _ _ _ s Hrun). apply app_nil_r.
  - apply (Runs_calls _ _ _ _ _ s Hrun).
Qed.

Lemma provider_failure_is_fatal_witness :
  response_of (serve provider_down empty_store)
    = inr {| Http.status := 500;
             Http.body := Http.ErrorJson (Message "OpenAI API error: 503") |}
  /\ chat_history (store_of (serve provider_down empty_store)) = []
  /\ calls (store_of (serve provider_down empty_store))
     = ([] ++ readCalls ++ [Fetch (promptOf provider_down) question])%list.
Proof.
  apply (provider_failure_is_fatal provider_down user_1 question
           (overloaded "upstream overloaded") empty_store);
    reflexivity.
Defined.

(** C3. When the provider call succeeds, the response is the success
    response with the assistant's reply whatever the two inserts
    answer, in particular when every insert fails. *)
Theorem recording_failure_keeps_response (w : World) (user : User)
    (message aiResponse : value) (outcome : Row -> option PgError) (s : Store) :
  authenticated w = Some user ->
  utterance w = Some message ->
  provider_reply w = Some aiResponse ->
  response_of (serve (with_insert_error w outcome) s)
    = inr {| Http.status := 200; Http.body := Http.ResponseJson aiResponse |}.
Proof.
  intros Hauth Hbody Hreply.
  apply (Runs_response _ _ _ _ _ s
           (serve_succeeds (with_insert_error w outcome) user message aiResponse
              Hauth Hbody Hreply)).
Qed.

Lemma recording_failure_keeps_response_witness :
  response_of (serve (with_insert_error ana_asks recorder_down) empty_store)
    = inr {| Http.status := 200; Http.body := Http.ResponseJson advice |}
  /\ chat_history (store_of (serve (with_insert_error ana_asks recorder_down) empty_store))
     = [].
Proof.
  split.
  - apply (recording_failure_keeps_response ana_asks user_1 question advice
             recorder_down empty_store);
      reflexivity.
  - reflexivity.
Defined.




(** On a non-success status the response is the error text built
    from the status code alone: two turns that differ only in the
    provider's answer, with the same non-success status code, get the
    same response. *)
Theorem provider_error_body_not_exposed (w : World) (user : User) (message : value)
    (r1 r2 : ProviderResponse) (s : Store) :
  authenticated w = Some user ->
  utterance w = Some message ->
  resp_status r1 = resp_status r2 ->
  ok r1 = false ->
  response_of (serve (with_fetch w (Responds r1)) s)
    = response_of (serve (with_fetch w (Responds r2)) s)
  /\ response_of (serve (with_fetch w (Responds r1)) s)
     = inr {| Http.status := 500;
              Http.body := Http.ErrorJson
                             (Message ("OpenAI API error: " ++ decimal (resp_status r1))) |}.
Proof.
  intros Hauth Hbody Hstatus Hok1.
  assert (Hok2 : ok r2 = false) by (unfold ok in *; now rewrite <- Hstatus).
  assert (Hrun : forall r, ok r = false ->
             response_of (serve (with_fetch w (Responds r)) s)
             = inr (failure (statusError r))).
  { intros r Hok.
    apply (Runs_response _ _ _ _ _ s
             (serve_fails_at_invoke (with_fetch w (Responds r)) user message _ _
                Hauth Hbody
                (invoke_bad_status (with_fetch w (Responds r)) _ message r
                   eq_refl Hok))). }
  split.
  - rewrite (Hrun r1 Hok1), (Hrun r2 Hok2). unfold statusError. now rewrite Hstatus.
  - apply (Hrun r1 Hok1).
Qed.

Lemma provider_error_body_not_exposed_witness :
  response_of (serve (with_fetch ana_asks (Responds (overloaded "upstream overloaded")))
                 empty_store)
    = response_of (serve (with_fetch ana_asks (Responds (overloaded "quota of org-42 exceeded")))
                     empty_store)
  /\ response_of (serve (with_fetch ana_asks (Responds (overloaded "upstream overloaded")))
                    empty_store)
     = inr {| Http.status := 500;
              Http.body := Http.ErrorJson (Message "OpenAI API error: 503") |}.
Proof.
  apply (provider_error_body_not_exposed ana_asks user_1 question
           (overloaded "upstream overloaded") (overloaded "quota of org-42 exceeded")
           empty_store);
    reflexivity.
Defined.

(** A success status with a body that is not JSON: [response.json()]
    rejects, and the catch block answers with the message of that
    SyntaxError. *)
Lemma unparsable_reply_fails_with_parse_message (w : World) (user : User)
    (message : value) (r : ProviderResponse) (s : Store) :
  authenticated w = Some user ->
  utterance w = Some message ->
  fetch w = Responds r ->
  ok r = true ->
  resp_json r = None ->
  response_of (serve w s)
    = inr {| Http.status := 500;
             Http.body := Http.ErrorJson (Message (resp_json_error r)) |}.
Proof.
  intros Hauth Hbody Hfetch Hok Hjson.
  assert (Hinvoke : Runs (invoke w (promptOf w) message)
                      (inl (ResponseSyntaxError (resp_json_error r))) [] []
                      [Fetch (promptOf w) message]).
  { apply (invoke_bad_payload w _ message r _ Hfetch Hok). now rewrite Hjson. }
  apply (Runs_response _ _ _ _ _ s
           (serve_fails_at_invoke w user message _ _ Hauth Hbody Hinvoke)).
Qed.

(** C8 fails on the code. Two turns differ only in the text of the
    provider's body, under the same status code 200; neither body is
    JSON, so both provider calls fail. The error text returned to the
    caller is the parse error, which quotes the body: it contains the
    provider's text and differs between the two turns. *)
Theorem unparsable_reply_text_reaches_caller :
  resp_status (not_json "Bad Gateway") = resp_status (not_json "Service down")
  /\ response_of (serve bad_gateway empty_store)
     = inr {| Http.status := 500;
              Http.body :=
                Http.ErrorJson
                  (Message ("Unexpected token 'B', " ++ quote ++ "Bad Gateway" ++ quote
                              ++ " is not valid JSON")) |}
  /\ response_of (serve service_down empty_store)
     = inr {| Http.status := 500;
              Http.body :=
                Http.ErrorJson
                  (Message ("Unexpected token 'S', " ++ quote ++ "Service down" ++ quote
                              ++ " is not valid JSON")) |}
  /\ response_of (serve bad_gateway empty_store)
     <> response_of (serve service_down empty_store)
  /\ Contains ("Unexpected token 'B', " ++ quote ++ "Bad Gateway" ++ quote
                ++ " is not valid JSON")
              (resp_text (not_json "Bad Gateway")).
Proof.
  assert (Hfirst := unparsable_reply_fails_with_parse_message bad_gateway user_1 question
                      (not_json "Bad Gateway") empty_store
                      eq_refl eq_refl eq_refl eq_refl eq_refl).
  assert (Hsecond := unparsable_reply_fails_with_parse_message service_down user_1 question
                       (not_json "Service down") empty_store
                       eq_refl eq_refl eq_refl eq_refl eq_refl).
  split; [reflexivity | split; [| split; [| split]]].
  - exact Hfirst.
  - exact Hsecond.
  - rewrite Hfirst, Hsecond. discriminate.
  - exists ("Unexpected token 'B', " ++ quote), (quote ++ " is not valid JSON").
    reflexivity.
Qed.

(** C9. An authenticated request whose body is missing or is not JSON
    ends in the error response (status 500, an error text); no row is
    appended; and the calls made are the user lookup, the three reads
    and the body read, in that order: the provider is not called. *)
Theorem unparsable_body_fails_before_provider (w : World) (user : User) (s : Store) :
  authenticated w = Some user ->
  req_json w = None ->
  response_of (serve w s)
    = inr {| Http.status := 500; Http.body := Http.ErrorJson SyntaxErrorMessage |}
  /\ chat_history (store_of (serve w s)) = chat_history s
  /\ calls (store_of (serve w s))
     = (calls s ++ [GetUser; Select "profiles"; Select "credit_info";
                    Select "financial_goals"; ReqJson])%list.
Proof.
  intros Hauth Hbody.
  pose proof (serve_fails_at_body w user Hauth Hbody) as Hrun.
  split; [| split].
  - apply (Runs_response _ _ _ _ _ s Hrun).
  - rewrite (Runs_chat_history _ _ _ _ _ s Hrun). apply app_nil_r.
  - apply (Runs_calls _ _ _ _ _ s Hrun).
Qed.

Lemma unparsable_body_fails_before_provider_witness :
  response_of (serve no_body empty_store)
    = inr {| Http.status := 500; Http.body := Http.ErrorJson SyntaxErrorMessage |}
  /\ chat_history (store_of (serve no_body empty_store)) = []
  /\ calls (store_of (serve no_body empty_store))
     = ([] ++ [GetUser; Select "profiles"; Select "credit_info";
               Select "financial_goals"; ReqJson])%list.
Proof.
  apply (unparsable_body_fails_before_provider no_body user_1 empty_store);
    reflexivity.
Defined.

(** C10. When the insert of the user's message fails and the insert of
    the assistant's reply succeeds, the failure is written to the
    console, the second insert is still attempted, and [chat_history]
    gains the assistant's row alone; the response is the success
    response. *)
Theorem user_insert_failure_leaves_reply_alone (w : World) (user : User)
    (message aiResponse : value) (e : PgError) (s : Store) :
  authenticated w = Some user ->
  utterance w = Some message ->
  provider_reply w = Some aiResponse ->
  insert_result w (userRow user message) = Some e ->
  insert_result w (aiRow user aiResponse) = None ->
  chat_history (store_of (serve w s))
    = (chat_history s
       ++ [ {| user_id := id user; message := aiResponse; is_user_message := false |} ])%list
  /\ In (ConsoleError "Error saving user message:" (Failure (Some e)))
        (console (store_of (serve w s)))
  /\ calls (store_of (serve w s))
     = (calls s ++ readCalls
        ++ [Fetch (promptOf w) message;
            Insert {| user_id := id user; message := message; is_user_message := true |};
            Insert {| user_id := id user; message := aiResponse;
                      is_user_message := false |}])%list
  /\ response_of (serve w s)
     = inr {| Http.status := 200; Http.body := Http.ResponseJson aiResponse |}.
Proof.
  intros Hauth Hbody Hreply Huser Hai.
  pose proof (serve_succeeds w user message aiResponse Hauth Hbody Hreply) as Hrun.
  split; [| split; [| split]].
  - rewrite (Runs_chat_history _ _ _ _ _ s Hrun).
    unfold stored. now rewrite Huser, Hai.
  - rewrite (Runs_console _ _ _ _ _ s Hrun).
    unfold insertLog. rewrite Huser.
    apply in_or_app. right.
    apply in_or_app. right.
    apply in_or_app. right.
    apply in_or_app. left. now left.
  - apply (Runs_calls _ _ _ _ _ s Hrun).
  - apply (Runs_response _ _ _ _ _ s Hrun).
Qed.

Lemma user_insert_failure_leaves_reply_alone_witness :
  let w := with_insert_error ana_asks user_row_refused in
  chat_history (store_of (serve w empty_store))
    = ([] ++ [ {| user_id := "user-1"; message := advice; is_user_message := false |} ])%list
  /\ In (ConsoleError "Error saving user message:" (Failure (Some storage_down)))
        (console (store_of (serve w empty_store)))
  /\ calls (store_of (serve w empty_store))
     = ([] ++ readCalls
        ++ [Fetch (promptOf w) question;
            Insert {| user_id := "user-1"; message := question; is_user_message := true |};
            Insert {| user_id := "user-1"; message := advice;
                      is_user_message := false |}])%list
  /\ response_of (serve w empty_store)
     = inr {| Http.status := 200; Http.body := Http.ResponseJson advice |}.
Proof.
  exact (user_insert_failure_leaves_reply_alone
           (with_insert_error ana_asks user_row_refused) user_1 question advice
           storage_down empty_store eq_refl eq_refl eq_refl eq_refl eq_refl).
Defined.

(** ** Every way a request can end: the outcome table *)

Lemma authenticated_table (w : World) :
  authenticated w
  = if String.eqb (method w) "OPTIONS" then None
    else if keySet w then currentUser w else None.
Proof.
  unfold authenticated, keySet, currentUser.
  destruct (String.eqb (method w) "OPTIONS"); [reflexivity |].
  destruct (OPEN_AI_API_KEY w) as [key |]; [| reflexivity].
  destruct (String.eqb key EmptyString); reflexivity.
Qed.

Lemma utterance_table (w : World) :
  utterance w = match bodyOutcome w with inr m => Some m | inl _ => None end.
Proof.
  unfold utterance, bodyOutcome.
  destruct (req_json w) as [parsed |]; reflexivity.
Qed.

Lemma provider_reply_table (w : World) :
  provider_reply w = match providerOutcome w with inr v => Some v | inl _ => None end.
Proof.
  unfold provider_reply, providerOutcome.
  destruct (fetch w) as [| r]; [reflexivity |].
  destruct (ok r); [| reflexivity].
  destruct (resp_json r) as [data |]; reflexivity.
Qed.

Lemma authenticate_no_key (w : World) :
  keySet w = false ->
  Runs (authenticate w) (inl (Error "OPEN_AI_API_KEY is not set")) [] [] [].
Proof.
  unfold keySet, authenticate.
  destruct (OPEN_AI_API_KEY w) as [key |]; simpl Js.truthy.
  - destruct (String.eqb key EmptyString); [intros _ | discriminate].
    simpl. run; reflexivity.
  - intros _. run; reflexivity.
Qed.

Lemma authenticate_no_user (w : World) :
  keySet w = true ->
  currentUser w = None ->
  Runs (authenticate w) (inl (Error "User not authenticated")) []
       [ConsoleError "User error:" (Auth (auth_error w))] [GetUser].
Proof.
  unfold keySet, currentUser, authenticate.
  destruct (OPEN_AI_API_KEY w) as [key |]; [| discriminate].
  simpl Js.truthy.
  destruct (String.eqb key EmptyString); [discriminate | intros _].
  simpl negb. cbv iota.
  destruct (auth_error w) as [err |], (auth_user w) as [u |]; try discriminate;
    intros _; run; reflexivity.
Qed.

Lemma parseBody_throws (w : World) (e : thrown) :
  bodyOutcome w = inl e ->
  Runs (parseBody w) (inl e) [] [] [ReqJson].
Proof.
  unfold bodyOutcome, parseBody.
  destruct (req_json w) as [parsed |] eqn:Hbody.
  - intros Hget. run; reflexivity.
  - intros [= <-]. run; reflexivity.
Qed.

Lemma invoke_throws (w : World) (prompt : string) (message : value) (e : thrown) :
  providerOutcome w = inl e ->
  Runs (invoke w prompt message) (inl e) [] (providerLog w) [Fetch prompt message].
Proof.
  unfold providerLog. intros Hout. rewrite Hout. revert Hout.
  unfold providerOutcome.
  destruct (fetch w) as [| r] eqn:Hfetch.
  - intros [= <-]. unfold invoke. run; reflexivity.
  - destruct (ok r) eqn:Hok.
    + intros Hpayload.
      apply (invoke_bad_payload w prompt message r e Hfetch Hok Hpayload).
    + intros [= <-].
      apply (invoke_bad_status w prompt message r Hfetch Hok).
Qed.

Lemma serve_fails_at_authenticate (w : World) (e : thrown) (logs : list LogLine)
    (cs : list Call) :
  String.eqb (method w) "OPTIONS" = false ->
  Runs (authenticate w) (inl e) [] logs cs ->
  Runs (serve w) (inr (failure e)) [] (logs ++ catchLog e) cs.
Proof.
  intros Hmethod Hauth. unfold serve. rewrite Hmethod.
  eapply Runs_eq.
  - eapply Runs_catch; [| apply handler_runs].
    unfold turn. apply Runs_bind_throw. exact Hauth.
  - reflexivity.
  - reflexivity.
  - apply app_nil_r.
Qed.

Lemma serve_fails_at_parse (w : World) (user : User) (e : thrown) :
  authenticated w = Some user ->
  bodyOutcome w = inl e ->
  Runs (serve w) (inr (failure e)) []
       (([ConsoleLog "User authenticated:" (Text (id user))] ++ readStateLog w)
        ++ catchLog e)
       readCalls.
Proof.
  intros Hauth Hbody. unfold serve.
  rewrite (authenticated_method w user Hauth).
  eapply Runs_eq.
  - eapply Runs_catch; [| apply handler_runs].
    unfold turn.
    eapply Runs_bind; [apply (authenticate_runs w user Hauth) |].
    eapply Runs_bind; [apply readState_runs |].
    cbv beta iota.
    apply Runs_bind_throw. apply (parseBody_throws w e Hbody).
  - reflexivity.
  - simpl. now rewrite !app_nil_r.
  - reflexivity.
Qed.

(** The handler does what the outcome table says, from any store. *)
Lemma serve_outcome (w : World) :
  Runs (serve w) (inr (out_response (outcome w)))
       (out_rows (outcome w)) (out_logs (outcome w)) (out_calls (outcome w)).
Proof.
  unfold outcome.
  destruct (String.eqb (method w) "OPTIONS") eqn:Hmethod.
  - unfold serve. rewrite Hmethod. apply Runs_ret.
  - destruct (keySet w) eqn:Hkey; simpl negb; cbv iota.
    + destruct (currentUser w) as [user |] eqn:Huser.
      * assert (Hauth : authenticated w = Some user).
        { now rewrite authenticated_table, Hmethod, Hkey. }
        destruct (bodyOutcome w) as [e | message] eqn:Hbody.
        -- apply (serve_fails_at_parse w user e Hauth Hbody).
        -- assert (Hutt : utterance w = Some message).
           { now rewrite utterance_table, Hbody. }
           destruct (providerOutcome w) as [e | aiResponse] eqn:Hprov.
           ++ unfold failed. simpl. rewrite <- app_assoc.
              apply (serve_fails_at_invoke w user message e (providerLog w) Hauth Hutt).
              now apply invoke_throws.
           ++ assert (Hreply : provider_reply w = Some aiResponse).
              { now rewrite provider_reply_table, Hprov. }
              apply (serve_succeeds w user message aiResponse Hauth Hutt Hreply).
      * apply (serve_fails_at_authenticate w _ _ _ Hmethod).
        now apply authenticate_no_user.
    + apply (serve_fails_at_authenticate w _ [] [] Hmethod).
      now apply authenticate_no_key.
Qed.

Lemma serve_is_outcome (w : World) (s : Store) :
  serve w s
  = (inr (out_response (outcome w)),
     grow s (out_rows (outcome w)) (out_logs (outcome w)) (out_calls (outcome w))).
Proof. apply serve_outcome. Qed.

(** ** The handler beyond the claimed turns *)

(** The handler never throws: whatever the request and whatever the
    outside answers, it returns a response, with status 500 and an
    error text, or with status 200 and no error text. *)
Theorem serve_always_responds (w : World) (s : Store) :
  exists resp,
    response_of (serve w s) = inr resp
    /\ match Http.body resp with
       | Http.ErrorJson _ => Http.status resp = 500
       | _ => Http.status resp = 200
       end.
Proof.
  exists (out_response (outcome w)). split.
  - apply (Runs_response _ _ _ _ _ s (serve_outcome w)).
  - unfold outcome.
    destruct (String.eqb (method w) "OPTIONS"); [reflexivity |].
    destruct (keySet w); [| reflexivity].
    destruct (currentUser w) as [user |]; [| reflexivity].
    destruct (bodyOutcome w) as [e | message]; [reflexivity |].
    destruct (providerOutcome w) as [e | aiResponse]; reflexivity.
Qed.

(** An OPTIONS request is answered 200 without a body and leaves the
    store as it was: no key check, no call, no console line, no row. *)
Theorem preflight_touches_nothing (w : World) (s : Store) :
  method w = "OPTIONS" ->
  serve w s = (inr {| Http.status := 200; Http.body := Http.NoBody |}, s).
Proof.
  intros Hmethod. unfold serve. now rewrite Hmethod.
Qed.

Lemma preflight_touches_nothing_witness :
  serve preflight_request empty_store
  = (inr {| Http.status := 200; Http.body := Http.NoBody |}, empty_store).
Proof.
  apply (preflight_touches_nothing preflight_request empty_store). reflexivity.
Defined.

(** Without an API key (unset or empty) any other request ends in the
    500 response "OPEN_AI_API_KEY is not set" before anything is
    called: the user is not looked up and no row is appended. *)
Theorem missing_key_fails_before_any_call (w : World) (s : Store) :
  String.eqb (method w) "OPTIONS" = false ->
  OPEN_AI_API_KEY w = None \/ OPEN_AI_API_KEY w = Some EmptyString ->
  response_of (serve w s)
    = inr {| Http.status := 500;
             Http.body := Http.ErrorJson (Message "OPEN_AI_API_KEY is not set") |}
  /\ calls (store_of (serve w s)) = calls s
  /\ chat_history (store_of (serve w s)) = chat_history s.
Proof.
  intros Hmethod Hkey.
  assert (Hset : keySet w = false).
  { unfold keySet. destruct Hkey as [-> | ->]; reflexivity. }
  pose proof (serve_fails_at_authenticate w _ [] [] Hmethod
                (authenticate_no_key w Hset)) as Hrun.
  split; [| split].
  - apply (Runs_response _ _ _ _ _ s Hrun).
  - rewrite (Runs_calls _ _ _ _ _ s Hrun). apply app_nil_r.
  - rewrite (Runs_chat_history _ _ _ _ _ s Hrun). apply app_nil_r.
Qed.

Lemma missing_key_fails_before_any_call_witness :
  response_of (serve key_unset empty_store)
    = inr {| Http.status := 500;
             Http.body := Http.ErrorJson (Message "OPEN_AI_API_KEY is not set") |}
  /\ calls (store_of (serve key_unset empty_store)) = []
  /\ chat_history (store_of (serve key_unset empty_store)) = [].
Proof.
  apply (missing_key_fails_before_any_call key_unset empty_store);
    [reflexivity | left; reflexivity].
Defined.

(** When [getUser] reports an error or no user, the request ends in
    the 500 response "User not authenticated"; the user lookup is the
    only call made (no read, no provider call, no insert), the lookup
    error is written to the console, and no row is appended. *)
Theorem unauthenticated_fails_before_reads (w : World) (s : Store) :
  String.eqb (method w) "OPTIONS" = false ->
  keySet w = true ->
  auth_error w <> None \/ auth_user w = None ->
  response_of (serve w s)
    = inr {| Http.status := 500;
             Http.body := Http.ErrorJson (Message "User not authenticated") |}
  /\ calls (store_of (serve w s)) = (calls s ++ [GetUser])%list
  /\ chat_history (store_of (serve w s)) = chat_history s
  /\ In (ConsoleError "User error:" (Auth (auth_error w)))
        (console (store_of (serve w s))).
Proof.
  intros Hmethod Hkey Hauth.
  assert (Huser : currentUser w = None).
  { unfold currentUser.
    destruct (auth_error w) as [err |]; [reflexivity |].
    destruct Hauth as [Herr | ->]; [now contradiction Herr | reflexivity]. }
  pose proof (serve_fails_at_authenticate w _ _ _ Hmethod
                (authenticate_no_user w Hkey Huser)) as Hrun.
  split; [| split; [| split]].
  - apply (Runs_response _ _ _ _ _ s Hrun).
  - apply (Runs_calls _ _ _ _ _ s Hrun).
  - rewrite (Runs_chat_history _ _ _ _ _ s Hrun). apply app_nil_r.
  - rewrite (Runs_console _ _ _ _ _ s Hrun).
    apply in_or_app. right. now left.
Qed.

Lemma unauthenticated_fails_before_reads_witness :
  response_of (serve signed_out empty_store)
    = inr {| Http.status := 500;
             Http.body := Http.ErrorJson (Message "User not authenticated") |}
  /\ calls (store_of (serve signed_out empty_store)) = ([] ++ [GetUser])%list
  /\ chat_history (store_of (serve signed_out empty_store)) = []
  /\ In (ConsoleError "User error:" (Auth (Some "invalid JWT")))
        (console (store_of (serve signed_out empty_store))).
Proof.
  apply (unauthenticated_fails_before_reads signed_out empty_store);
    [reflexivity | reflexivity | left; discriminate].
Defined.

(** Errors of the three reads are absorbed: with the same data, the
    response, the rows appended and the calls made are the same
    whatever errors the profile, credit and goal reads report. Only the
    console differs. *)
Theorem read_errors_are_absorbed (w : World)
    (profileError creditError goalsError : option PgError) (s : Store) :
  let w' := with_read_errors w profileError creditError goalsError in
  response_of (serve w' s) = response_of (serve w s)
  /\ chat_history (store_of (serve w' s)) = chat_history (store_of (serve w s))
  /\ calls (store_of (serve w' s)) = calls (store_of (serve w s)).
Proof.
  intros w'. subst w'.
  rewrite !serve_is_outcome. unfold response_of, store_of, grow. simpl.
  unfold outcome.
  change (method (with_read_errors w profileError creditError goalsError))
    with (method w).
  change (keySet (with_read_errors w profileError creditError goalsError))
    with (keySet w).
  change (currentUser (with_read_errors w profileError creditError goalsError))
    with (currentUser w).
  change (bodyOutcome (with_read_errors w profileError creditError goalsError))
    with (bodyOutcome w).
  change (providerOutcome (with_read_errors w profileError creditError goalsError))
    with (providerOutcome w).
  destruct (String.eqb (method w) "OPTIONS"); [repeat split |].
  destruct (keySet w); [| repeat split].
  destruct (currentUser w) as [user |]; [| repeat split].
  destruct (bodyOutcome w) as [e | message]; [repeat split |].
  destruct (providerOutcome w) as [e | aiResponse]; repeat split.
Qed.

(** A request answered with status 500 leaves [chat_history] as it
    was, whichever step failed: the key check, the user lookup, the
    body read or the provider call. *)
Theorem error_response_leaves_no_row (w : World) (s : Store) (resp : Http.Response) :
  response_of (serve w s) = inr resp ->
  Http.status resp = 500 ->
  chat_history (store_of (serve w s)) = chat_history s.
Proof.
  rewrite serve_is_outcome. unfold response_of, store_of, grow. simpl.
  intros [= <-]. unfold outcome.
  destruct (String.eqb (method w) "OPTIONS"); [discriminate |].
  destruct (keySet w); [| intros _; apply app_nil_r].
  destruct (currentUser w) as [user |]; [| intros _; apply app_nil_r].
  destruct (bodyOutcome w) as [e | message]; [intros _; apply app_nil_r |].
  destruct (providerOutcome w) as [e | aiResponse];
    [intros _; apply app_nil_r | discriminate].
Qed.

Lemma error_response_leaves_no_row_witness :
  chat_history (store_of (serve offline empty_store)) = [].
Proof.
  apply (error_response_leaves_no_row offline empty_store
           {| Http.status := 500; Http.body := Http.ErrorJson TypeErrorMessage |});
    reflexivity.
Defined.

(** [chat_history] only grows: every request leaves the rows that were
    there, in place, and appends at most two. Each appended row carries
    a message that is neither null nor undefined and the id of the user
    [getUser] resolved. *)
Theorem history_append_only (w : World) (s : Store) :
  exists rows,
    chat_history (store_of (serve w s)) = (chat_history s ++ rows)%list
    /\ (List.length rows <= 2)%nat
    /\ forall row, In row rows ->
         nullish (message row) = false
         /\ exists user, currentUser w = Some user /\ user_id row = id user.
Proof.
  exists (out_rows (outcome w)). split; [| split].
  - apply (Runs_chat_history _ _ _ _ _ s (serve_outcome w)).
  - unfold outcome.
    destruct (String.eqb (method w) "OPTIONS"); [simpl; lia |].
    destruct (keySet w); [| simpl; lia].
    destruct (currentUser w) as [user |]; [| simpl; lia].
    destruct (bodyOutcome w) as [e | msg]; [simpl; lia |].
    destruct (providerOutcome w) as [e | aiResponse]; [simpl; lia |].
    simpl. unfold stored.
    destruct (insert_result w (userRow user msg)),
             (insert_result w (aiRow user aiResponse)); simpl; lia.
  - intros row. unfold outcome.
    destruct (String.eqb (method w) "OPTIONS"); [intros [] |].
    destruct (keySet w); [| intros []].
    destruct (currentUser w) as [user |]; [| intros []].
    destruct (bodyOutcome w) as [e | msg]; [intros [] |].
    destruct (providerOutcome w) as [e | aiResponse]; [intros [] |].
    simpl. intros Hin.
    assert (Hstored : forall r, In row (stored w r) ->
                        row = r /\ nullish (message r) = false).
    { intros r. unfold stored, insert_result.
      destruct (insert_error w r); [intros [] |].
      destruct (nullish (message r)); [intros [] |].
      intros [<- | []]. now split. }
    apply in_app_or in Hin.
    destruct Hin as [Hin | Hin]; apply Hstored in Hin; destruct Hin as [-> Hmsg];
      (split; [exact Hmsg | exists user; now split]).
Qed.

(** The calls of a request always follow one order: the user lookup,
    the reads of profiles, credit_info and financial_goals, the body
    read, one provider call, the insert of the user's message and the
    insert of the reply. A request stops somewhere along this
    sequence; it never repeats or reorders a call, so the provider is
    called at most once. *)
Theorem calls_follow_one_order (w : World) (s : Store) :
  exists made,
    calls (store_of (serve w s)) = (calls s ++ made)%list
    /\ exists prompt message first second skipped,
         (made ++ skipped)%list
         = [GetUser; Select "profiles"; Select "credit_info"; Select "financial_goals";
            ReqJson; Fetch prompt message; Insert first; Insert second].
Proof.
  exists (out_calls (outcome w)). split.
  - apply (Runs_calls _ _ _ _ _ s (serve_outcome w)).
  - unfold outcome.
    set (row := {| user_id := EmptyString; message := undefined;
                   is_user_message := true |}).
    destruct (String.eqb (method w) "OPTIONS");
      [exists EmptyString, undefined, row, row; eexists; reflexivity |].
    destruct (keySet w); simpl negb; cbv iota;
      [| exists EmptyString, undefined, row, row; eexists; reflexivity].
    destruct (currentUser w) as [user |];
      [| exists EmptyString, undefined, row, row; eexists; reflexivity].
    destruct (bodyOutcome w) as [e | message];
      [exists EmptyString, undefined, row, row; eexists; reflexivity |].
    destruct (providerOutcome w) as [e | aiResponse].
    + exists (promptOf w), message, row, row. eexists. reflexivity.
    + exists (promptOf w), message, (userRow user message), (aiRow user aiResponse), [].
      reflexivity.
Qed.

(** A request is answered with the reply of the provider exactly when
    the user is authenticated, the body gives a message and the
    provider call succeeds; nothing else (a read error, a failed
    insert) takes part in that. *)
Theorem success_iff (w : World) (s : Store) (aiResponse : value) :
  response_of (serve w s)
    = inr {| Http.status := 200; Http.body := Http.ResponseJson aiResponse |}
  <-> (exists user message,
         authenticated w = Some user
         /\ utterance w = Some message
         /\ provider_reply w = Some aiResponse).
Proof.
  rewrite serve_is_outcome. unfold response_of. simpl.
  rewrite authenticated_table, utterance_table, provider_reply_table.
  unfold outcome.
  destruct (String.eqb (method w) "OPTIONS").
  { split; [discriminate | intros (u & m & H & _); discriminate]. }
  destruct (keySet w); simpl negb; cbv iota.
  2:{ split; [discriminate | intros (u & m & H & _); discriminate]. }
  destruct (currentUser w) as [user |].
  2:{ split; [discriminate | intros (u & m & H & _); discriminate]. }
  destruct (bodyOutcome w) as [e | message].
  { split; [discriminate | intros (u & m & _ & H & _); discriminate]. }
  destruct (providerOutcome w) as [e | reply].
  { split; [discriminate | intros (u & m & _ & _ & H); discriminate]. }
  split.
  - intros [= ->]. now exists user, message.
  - intros (u & m & _ & _ & [= ->]). reflexivity.
Qed.

(** A body that is the JSON text [null] cannot be destructured: the
    request ends in a 500 response before the provider is called, and
    no row is appended. *)
Theorem null_body_fails_before_provider (w : World) (user : User) (s : Store) :
  authenticated w = Some user ->
  req_json w = Some JNull ->
  response_of (serve w s)
    = inr {| Http.status := 500; Http.body := Http.ErrorJson TypeErrorMessage |}
  /\ calls (store_of (serve w s)) = (calls s ++ readCalls)%list
  /\ chat_history (store_of (serve w s)) = chat_history s.
Proof.
  intros Hauth Hbody.
  assert (Hout : bodyOutcome w = inl TypeError).
  { unfold bodyOutcome. now rewrite Hbody. }
  pose proof (serve_fails_at_parse w user TypeError Hauth Hout) as Hrun.
  split; [| split].
  - apply (Runs_response _ _ _ _ _ s Hrun).
  - apply (Runs_calls _ _ _ _ _ s Hrun).
  - rewrite (Runs_chat_history _ _ _ _ _ s Hrun). apply app_nil_r.
Qed.

Lemma null_body_fails_before_provider_witness :
  response_of (serve null_body empty_store)
    = inr {| Http.status := 500; Http.body := Http.ErrorJson TypeErrorMessage |}
  /\ calls (store_of (serve null_body empty_store)) = ([] ++ readCalls)%list
  /\ chat_history (store_of (serve null_body empty_store)) = [].
Proof.
  apply (null_body_fails_before_provider null_body user_1 empty_store); reflexivity.
Defined.

(** A body that parses but has no [message] is not rejected: the
    provider is called with an undefined user message and its reply is
    returned; the insert of the user's row is attempted and refused (the
    row has no message), so at most the reply is stored. *)
Theorem body_without_message_reaches_provider (w : World) (user : User)
    (aiResponse : value) (s : Store) :
  authenticated w = Some user ->
  utterance w = Some undefined ->
  provider_reply w = Some aiResponse ->
  insert_result w (aiRow user aiResponse) = None ->
  response_of (serve w s)
    = inr {| Http.status := 200; Http.body := Http.ResponseJson aiResponse |}
  /\ calls (store_of (serve w s))
     = (calls s ++ readCalls
        ++ [Fetch (promptOf w) undefined;
            Insert {| user_id := id user; message := undefined; is_user_message := true |};
            Insert {| user_id := id user; message := aiResponse;
                      is_user_message := false |}])%list
  /\ chat_history (store_of (serve w s))
     = (chat_history s
        ++ [ {| user_id := id user; message := aiResponse; is_user_message := false |} ])%list.
Proof.
  intros Hauth Hbody Hreply Hai.
  pose proof (serve_succeeds w user undefined aiResponse Hauth Hbody Hreply) as Hrun.
  split; [| split].
  - apply (Runs_response _ _ _ _ _ s Hrun).
  - apply (Runs_calls _ _ _ _ _ s Hrun).
  - rewrite (Runs_chat_history _ _ _ _ _ s Hrun).
    unfold stored. rewrite Hai.
    unfold insert_result at 1.
    destruct (insert_error w (userRow user undefined)); reflexivity.
Qed.

Lemma body_without_message_reaches_provider_witness :
  response_of (serve empty_body empty_store)
    = inr {| Http.status := 200; Http.body := Http.ResponseJson advice |}
  /\ calls (store_of (serve empty_body empty_store))
     = ([] ++ readCalls
        ++ [Fetch (promptOf empty_body) undefined;
            Insert {| user_id := "user-1"; message := undefined; is_user_message := true |};
            Insert {| user_id := "user-1"; message := advice;
                      is_user_message := false |}])%list
  /\ chat_history (store_of (serve empty_body empty_store))
     = ([] ++ [ {| user_id := "user-1"; message := advice; is_user_message := false |} ])%list.
Proof.
  exact (body_without_message_reaches_provider empty_body user_1 advice empty_store
           eq_refl eq_refl eq_refl eq_refl).
Defined.

(** When the provider cannot be reached the request ends in a 500
    response; the provider call is the last call, it is not repeated,
    and no row is appended. *)
Theorem network_failure_is_fatal (w : World) (user : User) (message : value)
    (s : Store) :
  authenticated w = Some user ->
  utterance w = Some message ->
  fetch w = Rejects ->
  response_of (serve w s)
    = inr {| Http.status := 500; Http.body := Http.ErrorJson TypeErrorMessage |}
  /\ calls (store_of (serve w s))
     = (calls s ++ readCalls ++ [Fetch (promptOf w) message])%list
  /\ chat_history (store_of (serve w s)) = chat_history s.
Proof.
  intros Hauth Hbody Hfetch.
  assert (Hout : providerOutcome w = inl TypeError).
  { unfold providerOutcome. now rewrite Hfetch. }
  pose proof (serve_fails_at_invoke w user message TypeError _ Hauth Hbody
                (invoke_throws w (promptOf w) message TypeError Hout)) as Hrun.
  split; [| split].
  - apply (Runs_response _ _ _ _ _ s Hrun).
  - apply (Runs_calls _ _ _ _ _ s Hrun).
  - rewrite (Runs_chat_history _ _ _ _ _ s Hrun). apply app_nil_r.
Qed.

Lemma network_failure_is_fatal_witness :
  response_of (serve offline empty_store)
    = inr {| Http.status := 500; Http.body := Http.ErrorJson TypeErrorMessage |}
  /\ calls (store_of (serve offline empty_store))
     = ([] ++ readCalls ++ [Fetch (promptOf offline) question])%list
  /\ chat_history (store_of (serve offline empty_store)) = [].
Proof.
  exact (network_failure_is_fatal offline user_1 question empty_store
           eq_refl eq_refl eq_refl).
Defined.

(** After a successful provider call both inserts are attempted, each
    on its own: [chat_history] gains the user's row if its insert
    succeeds and then the reply's row if its insert succeeds, whatever
    the other insert did. *)
Theorem recording_is_per_row (w : World) (user : User)
    (message aiResponse : value) (s : Store) :
  authenticated w = Some user ->
  utterance w = Some message ->
  provider_reply w = Some aiResponse ->
  let userMessage :=
    {| user_id := id user; message := message; is_user_message := true |} in
  let reply :=
    {| user_id := id user; message := aiResponse; is_user_message := false |} in
  chat_history (store_of (serve w s))
    = (chat_history s
       ++ (if is_some (insert_result w userMessage) then [] else [userMessage])
       ++ (if is_some (insert_result w reply) then [] else [reply]))%list
  /\ exists before,
       calls (store_of (serve w s))
       = (before ++ [Insert userMessage; Insert reply])%list.
Proof.
  intros Hauth Hbody Hreply userMessage reply.
  pose proof (serve_succeeds w user message aiResponse Hauth Hbody Hreply) as Hrun.
  split.
  - rewrite (Runs_chat_history _ _ _ _ _ s Hrun). unfold stored.
    change (userRow user message) with userMessage.
    change (aiRow user aiResponse) with reply.
    destruct (insert_result w userMessage), (insert_result w reply); reflexivity.
  - exists (calls s ++ readCalls ++ [Fetch (promptOf w) message])%list.
    rewrite (Runs_calls _ _ _ _ _ s Hrun).
    unfold readCalls. rewrite <- !app_assoc. reflexivity.
Qed.

Lemma recording_is_per_row_witness :
  chat_history (store_of (serve (with_insert_error ana_asks ai_row_refused) empty_store))
    = ([] ++ [ {| user_id := "user-1"; message := question; is_user_message := true |} ]
          ++ [])%list
  /\ exists before,
       calls (store_of (serve (with_insert_error ana_asks ai_row_refused) empty_store))
       = (before
          ++ [Insert {| user_id := "user-1"; message := question;
                        is_user_message := true |};
              Insert {| user_id := "user-1"; message := advice;
                        is_user_message := false |}])%list.
Proof.
  exact (recording_is_per_row (with_insert_error ana_asks ai_row_refused) user_1
           question advice empty_store eq_refl eq_refl eq_refl).
Defined.

(** A reply that is null or undefined (the provider answered without
    text content) is returned with status 200 and is never stored: the
    insert of the reply's row is attempted, fails and is written to the
    console, whatever the store would accept. *)
Theorem reply_without_text_is_not_stored (w : World) (user : User)
    (message aiResponse : value) (s : Store) :
  authenticated w = Some user ->
  utterance w = Some message ->
  provider_reply w = Some aiResponse ->
  nullish aiResponse = true ->
  response_of (serve w s)
    = inr {| Http.status := 200; Http.body := Http.ResponseJson aiResponse |}
  /\ (forall row, In row (chat_history (store_of (serve w s))) ->
        In row (chat_history s) \/ is_user_message row = true)
  /\ exists e,
       In (ConsoleError "Error saving AI message:" (Failure (Some e)))
          (console (store_of (serve w s))).
Proof.
  intros Hauth Hbody Hreply Hnull.
  pose proof (serve_succeeds w user message aiResponse Hauth Hbody Hreply) as Hrun.
  assert (Hrefused : exists e, insert_result w (aiRow user aiResponse) = Some e).
  { unfold insert_result.
    destruct (insert_error w (aiRow user aiResponse)) as [e |]; [now exists e |].
    simpl. rewrite Hnull. now eexists. }
  destruct Hrefused as [e He].
  split; [| split].
  - apply (Runs_response _ _ _ _ _ s Hrun).
  - intros row. rewrite (Runs_chat_history _ _ _ _ _ s Hrun).
    unfold stored at 2. rewrite He, app_nil_r.
    intros Hin. apply in_app_or in Hin. destruct Hin as [Hin | Hin]; [now left |].
    right. unfold stored in Hin.
    destruct (insert_result w (userRow user message)); [destruct Hin |].
    destruct Hin as [<- | []]. reflexivity.
  - exists e. rewrite (Runs_console _ _ _ _ _ s Hrun).
    unfold insertLog at 2. rewrite He.
    apply in_or_app. right.
    apply in_or_app. right.
    apply in_or_app. right.
    apply in_or_app. right.
    apply in_or_app. left. now left.
Qed.

Lemma reply_without_text_is_not_stored_witness :
  response_of (serve content_null empty_store)
    = inr {| Http.status := 200; Http.body := Http.ResponseJson (Some JNull) |}
  /\ (forall row, In row (chat_history (store_of (serve content_null empty_store))) ->
        In row (chat_history empty_store) \/ is_user_message row = true)
  /\ exists e,
       In (ConsoleError "Error saving AI message:" (Failure (Some e)))
          (console (store_of (serve content_null empty_store))).
Proof.
  exact (reply_without_text_is_not_stored content_null user_1 question (Some JNull)
           empty_store eq_refl eq_refl eq_refl eq_refl).
Defined.

(** ** The prompt beyond the claimed blocks *)

Lemma or_profile_text (profile : option Profile) (f : Profile -> option string)
    (fallback : string) :
  Js.to_string (Js.or (profile_field profile (fun p => Js.text (f p))) (Js.PStr fallback))
  = shown_text (column profile f) fallback.
Proof.
  destruct profile as [p |]; simpl; [apply or_text | reflexivity].
Qed.

Lemma or_profile_int (profile : option Profile) (f : Profile -> option Z)
    (fallback : string) :
  Js.to_string (Js.or (profile_field profile (fun p => Js.int (f p))) (Js.PStr fallback))
  = shown (column profile f) decimal fallback.
Proof.
  destruct profile as [p |]; simpl; [apply or_int | reflexivity].
Qed.

(** The identity block is emitted for every profile, present or not:
    the first name falls back to "Unknown", the last name to nothing,
    the age and the email to "Not provided", each on its own, when the
    column is null, empty, or (for the age) zero. A missing profile row
    reads exactly like a row whose columns are all null. *)
Theorem identityBlock_fields (profile : option Profile) :
  identityBlock profile
  = persona ++ nl ++ nl ++
    "User Information:" ++ nl ++
    "- Name: " ++ shown_text (column profile first_name) "Unknown"
      ++ " " ++ shown_text (column profile last_name) EmptyString ++ nl ++
    "- Age: " ++ shown (column profile age) decimal "Not provided" ++ nl ++
    "- Email: " ++ shown_text (column profile email) "Not provided"
  /\ identityBlock None = identityBlock (Some blank_profile).
Proof.
  split; [| reflexivity].
  unfold identityBlock.
  now rewrite !or_profile_text, or_profile_int.
Qed.

Lemma join_app (a b : list string) : join (a ++ b) = join a ++ join b.
Proof.
  induction a as [| x a IH]; simpl; [reflexivity |].
  now rewrite IH, append_assoc.
Qed.

Lemma combine_seq_snoc {A} (l : list A) (x : A) (start : nat) :
  combine (seq start (List.length (l ++ [x]))) (l ++ [x])
  = (combine (seq start (List.length l)) l ++ [((start + List.length l)%nat, x)])%list.
Proof.
  revert start. induction l as [| y l IH]; intros start; simpl.
  - now rewrite Nat.add_0_r.
  - rewrite IH. now rewrite Nat.add_succ_r.
Qed.

(** Adding a goal at the end of a non-empty goal list changes the
    prompt in one place: the entry of the new goal, numbered one more
    than the number of goals before, is inserted just before the
    closing instruction; the text before it is unchanged. *)
Theorem goal_added_at_end (profile : option Profile) (creditInfo : option CreditInfo)
    (g : Goal) (gs : list Goal) (added : Goal) :
  exists front,
    systemPrompt profile creditInfo (Some (g :: gs))
    = front ++ nl ++ nl ++ closing
    /\ systemPrompt profile creditInfo (Some ((g :: gs) ++ [added])%list)
       = front ++ goalItem (List.length (g :: gs) + 1) added ++ nl ++ nl ++ closing.
Proof.
  exists (identityBlock profile ++ creditPart creditInfo ++ goalPart (Some (g :: gs))).
  split.
  - rewrite systemPrompt_parts. now rewrite !append_assoc.
  - rewrite systemPrompt_parts.
    change (Some ((g :: gs) ++ [added])%list) with (Some (g :: (gs ++ [added]))%list).
    unfold goalPart, numbered.
    change (g :: gs ++ [added])%list with ((g :: gs) ++ [added])%list.
    rewrite combine_seq_snoc, map_app, join_app.
    cbn [map join fold_right fst snd].
    rewrite append_empty_r.
    replace (1 + List.length (g :: gs))%nat with (List.length (g :: gs) + 1)%nat by lia.
    now rewrite !append_assoc.
Qed.

(** ** The chat page *)

Lemma saveMessage_page (w : World) (user : option User) (text : string)
    (isUserMessage : bool) (a : App) :
  page (saveMessage w user text isUserMessage a) = page a.
Proof.
  unfold saveMessage. destruct user as [u |]; [| reflexivity].
  destruct (insert_result w (pageRow u text isUserMessage)); reflexivity.
Qed.

Lemma saveMessage_accepted (w : World) (u : User) (text : string)
    (isUserMessage : bool) (a : App) :
  insert_result w (pageRow u text isUserMessage) = None ->
  saveMessage w (Some u) text isUserMessage a
  = {| page := page a;
       backend := grow (backend a) [pageRow u text isUserMessage] [] [];
       browser_console := browser_console a |}.
Proof.
  intros Hok. unfold saveMessage. now rewrite Hok.
Qed.

Lemma outcome_failure (w : World) :
  String.eqb (method w) "OPTIONS" = false ->
  authenticated w = None \/ utterance w = None \/ provider_reply w = None ->
  exists e logs cs, outcome w = failed e logs cs.
Proof.
  intros Hmethod.
  rewrite authenticated_table, utterance_table, provider_reply_table, Hmethod.
  unfold outcome. rewrite Hmethod.
  destruct (keySet w); simpl negb; cbv iota; [| intros _; now eexists _, _, _].
  destruct (currentUser w) as [user |]; [| intros _; now eexists _, _, _].
  destruct (bodyOutcome w) as [e | msg]; [intros _; now eexists _, _, _ |].
  destruct (providerOutcome w) as [e | reply]; [intros _; now eexists _, _, _ |].
  intros [H | [H | H]]; discriminate.
Qed.

(** The edge function answered with an error, or was not reached: the
    call resolves to an error and the table is as before. *)
Lemma functions_invoke_error (w : World) (relayed : bool) (text : string)
    (store : Store) :
  relayed = false
  \/ authenticated (chatRequest w text) = None
  \/ provider_reply w = None ->
  exists store',
    functions_invoke w relayed text store = (InvokeError, store')
    /\ chat_history store' = chat_history store.
Proof.
  intros Hfail. unfold functions_invoke.
  destruct relayed; [| now exists store].
  destruct Hfail as [Hrelay | Hfail]; [discriminate |].
  destruct (outcome_failure (chatRequest w text) eq_refl) as (e & logs & cs & Hout).
  { destruct Hfail as [H | H]; [now left | now right; right]. }
  rewrite serve_is_outcome, Hout. simpl.
  eexists. split; [reflexivity |]. simpl. apply app_nil_r.
Qed.

(** A send with nothing but white space typed in, or while an earlier
    send is still running, does nothing: no message is shown, nothing
    is saved, the edge function is not called. *)
Theorem send_ignores_blank_or_busy (trim : string -> string) (w : World)
    (relayed : bool) (clock : Clock) (user : option User) (a : App) :
  trim (newMessage (page a)) = EmptyString \/ loading (page a) = true ->
  sendMessage trim w relayed clock user a = a.
Proof.
  intros Hguard. unfold sendMessage.
  destruct Hguard as [-> | ->]; [reflexivity |].
  now rewrite orb_true_r.
Qed.

Lemma send_ignores_blank_or_busy_witness :
  sendMessage trimmed ana_asks true noon (Some user_1) (setLoading true typed_question)
  = setLoading true typed_question.
Proof.
  apply (send_ignores_blank_or_busy trimmed ana_asks true noon (Some user_1)
           (setLoading true typed_question)).
  right. reflexivity.
Defined.

(** Every other send clears the input, ends with [loading] false and
    shows exactly two new messages after those already shown: the
    trimmed text as the user's message, and then one assistant message,
    whether the edge function answered, failed or was not reached. *)
Theorem send_shows_two_messages (trim : string -> string) (w : World)
    (relayed : bool) (clock : Clock) (user : option User) (a : App) :
  trim (newMessage (page a)) <> EmptyString ->
  loading (page a) = false ->
  let a' := sendMessage trim w relayed clock user a in
  newMessage (page a') = EmptyString
  /\ loading (page a') = false
  /\ exists answer,
       messages (page a')
       = (messages (page a)
          ++ [ {| ChatMessage.id := decimal (now_sent clock);
                  ChatMessage.message := Some (JStr (trim (newMessage (page a))));
                  ChatMessage.is_user_message := true;
                  ChatMessage.timestamp := iso_sent clock |};
               answer ])%list
       /\ ChatMessage.is_user_message answer = false.
Proof.
  intros Htext Hloading a'. subst a'. unfold sendMessage.
  apply String.eqb_neq in Htext. rewrite Htext, Hloading. simpl orb. cbv iota.
  cbv zeta.
  destruct (functions_invoke w relayed _ _) as [[response |] store]; simpl;
    rewrite !saveMessage_page; simpl; rewrite <- !app_assoc; simpl;
    (split; [reflexivity | split; [reflexivity | eexists; split; reflexivity]]).
Qed.

Lemma send_shows_two_messages_witness :
  let a' := sendMessage trimmed ana_asks true noon (Some user_1) typed_question in
  newMessage (page a') = EmptyString
  /\ loading (page a') = false
  /\ exists answer,
       messages (page a')
       = ([] ++ [ {| ChatMessage.id := "1767268800000";
                     ChatMessage.message := question;
                     ChatMessage.is_user_message := true;
                     ChatMessage.timestamp := "2026-01-01T12:00:00.000Z" |};
                  answer ])%list
       /\ ChatMessage.is_user_message answer = false.
Proof.
  apply (send_shows_two_messages trimmed ana_asks true noon (Some user_1)
           typed_question);
    [discriminate | reflexivity].
Defined.

Lemma functions_invoke_data (w : World) (text : string) (user : User)
    (aiResponse : value) (store : Store) :
  authenticated (chatRequest w text) = Some user ->
  provider_reply w = Some aiResponse ->
  exists store',
    functions_invoke w true text store = (Data aiResponse, store')
    /\ chat_history store'
       = (chat_history store
          ++ stored w (userRow user (Some (JStr text)))
          ++ stored w (aiRow user aiResponse))%list.
Proof.
  intros Hauth Hreply. unfold functions_invoke.
  rewrite (serve_succeeds (chatRequest w text) user (Some (JStr text)) aiResponse
             Hauth eq_refl Hreply store).
  simpl. eexists. split; reflexivity.
Qed.

(** A send that succeeds end to end stores the user's message twice:
    the page inserts it before calling the edge function, and the edge
    function inserts it again before the reply. The table gains three
    rows, and the page shows the reply. *)
Theorem send_stores_question_twice (trim : string -> string) (w : World)
    (clock : Clock) (user : User) (aiResponse : value) (a : App) :
  trim (newMessage (page a)) <> EmptyString ->
  loading (page a) = false ->
  let text := trim (newMessage (page a)) in
  let asked :=
    {| user_id := id user; message := Some (JStr text); is_user_message := true |} in
  let answered :=
    {| user_id := id user; message := aiResponse; is_user_message := false |} in
  authenticated (chatRequest w text) = Some user ->
  provider_reply w = Some aiResponse ->
  insert_result w asked = None ->
  insert_result w answered = None ->
  let a' := sendMessage trim w true clock (Some user) a in
  chat_history (backend a')
    = (chat_history (backend a) ++ [asked; asked; answered])%list
  /\ messages (page a')
     = (messages (page a)
        ++ [ {| ChatMessage.id := decimal (now_sent clock);
                ChatMessage.message := Some (JStr text);
                ChatMessage.is_user_message := true;
                ChatMessage.timestamp := iso_sent clock |};
             {| ChatMessage.id := decimal (now_answered clock + 1);
                ChatMessage.message := aiResponse;
                ChatMessage.is_user_message := false;
                ChatMessage.timestamp := iso_answered clock |} ])%list.
Proof.
  intros Htext Hloading text asked answered Hauth Hreply Hasked Hanswered a'.
  subst a'. unfold sendMessage.
  apply String.eqb_neq in Htext. rewrite Htext, Hloading. simpl orb. cbv iota.
  fold text. cbv zeta.
  rewrite (saveMessage_accepted w user text true) by exact Hasked.
  cbn [backend].
  match goal with
  | |- context [functions_invoke w true text ?st] =>
      destruct (functions_invoke_data w text user aiResponse st Hauth Hreply)
        as (store' & -> & Hrows)
  end.
  unfold stored in Hrows.
  change (userRow user (Some (JStr text))) with asked in Hrows.
  change (aiRow user aiResponse) with answered in Hrows.
  rewrite Hasked, Hanswered in Hrows.
  split.
  - simpl. rewrite Hrows. simpl. rewrite <- !app_assoc. reflexivity.
  - simpl. rewrite <- !app_assoc. reflexivity.
Qed.

Lemma send_stores_question_twice_witness :
  let a' := sendMessage trimmed ana_asks true noon (Some user_1) typed_question in
  chat_history (backend a')
  = ([] ++ [ {| user_id := "user-1"; message := question; is_user_message := true |};
             {| user_id := "user-1"; message := question; is_user_message := true |};
             {| user_id := "user-1"; message := advice; is_user_message := false |} ])%list
  /\ messages (page a')
     = ([] ++ [ {| ChatMessage.id := "1767268800000";
                   ChatMessage.message := question;
                   ChatMessage.is_user_message := true;
                   ChatMessage.timestamp := "2026-01-01T12:00:00.000Z" |};
                {| ChatMessage.id := "1767268802501";
                   ChatMessage.message := advice;
                   ChatMessage.is_user_message := false;
                   ChatMessage.timestamp := "2026-01-01T12:00:02.500Z" |} ])%list.
Proof.
  apply (send_stores_question_twice trimmed ana_asks noon user_1 advice typed_question);
    [discriminate | reflexivity | reflexivity | reflexivity | reflexivity | reflexivity].
Defined.

(** When the edge function answers with an error or is not reached,
    the page shows its canned text as the assistant's message and
    stores it as an assistant row after the user's row; the failure
    itself reaches only the browser console. *)
Theorem send_failure_stores_fallback (trim : string -> string) (w : World)
    (relayed : bool) (clock : Clock) (user : User) (a : App) :
  trim (newMessage (page a)) <> EmptyString ->
  loading (page a) = false ->
  let text := trim (newMessage (page a)) in
  let asked :=
    {| user_id := id user; message := Some (JStr text); is_user_message := true |} in
  let canned :=
    {| user_id := id user; message := Some (JStr fallbackText);
       is_user_message := false |} in
  relayed = false
  \/ authenticated (chatRequest w text) = None
  \/ provider_reply w = None ->
  insert_result w asked = None ->
  insert_result w canned = None ->
  let a' := sendMessage trim w relayed clock (Some user) a in
  chat_history (backend a') = (chat_history (backend a) ++ [asked; canned])%list
  /\ messages (page a')
     = (messages (page a)
        ++ [ {| ChatMessage.id := decimal (now_sent clock);
                ChatMessage.message := Some (JStr text);
                ChatMessage.is_user_message := true;
                ChatMessage.timestamp := iso_sent clock |};
             {| ChatMessage.id := decimal (now_answered clock + 1);
                ChatMessage.message := Some (JStr fallbackText);
                ChatMessage.is_user_message := false;
                ChatMessage.timestamp := iso_answered clock |} ])%list
  /\ browser_console a'
     = (browser_console a ++ [ConsoleError "Error sending message:" NoDetail])%list.
Proof.
  intros Htext Hloading text asked canned Hfail Hasked Hcanned a'.
  subst a'. unfold sendMessage.
  apply String.eqb_neq in Htext. rewrite Htext, Hloading. simpl orb. cbv iota.
  fold text. cbv zeta.
  rewrite (saveMessage_accepted w user text true) by exact Hasked.
  cbn [backend].
  match goal with
  | |- context [functions_invoke w relayed text ?st] =>
      destruct (functions_invoke_error w relayed text st Hfail)
        as (store' & -> & Hrows)
  end.
  rewrite (saveMessage_accepted w user fallbackText false) by exact Hcanned.
  split; [| split].
  - simpl. rewrite Hrows. simpl. rewrite <- !app_assoc. reflexivity.
  - simpl. rewrite <- !app_assoc. reflexivity.
  - reflexivity.
Qed.

Lemma send_failure_stores_fallback_witness :
  let a' := sendMessage trimmed provider_down true noon (Some user_1) typed_question in
  chat_history (backend a')
  = ([] ++ [ {| user_id := "user-1"; message := question; is_user_message := true |};
             {| user_id := "user-1"; message := Some (JStr fallbackText);
                is_user_message := false |} ])%list
  /\ messages (page a')
     = ([] ++ [ {| ChatMessage.id := "1767268800000";
                   ChatMessage.message := question;
                   ChatMessage.is_user_message := true;
                   ChatMessage.timestamp := "2026-01-01T12:00:00.000Z" |};
                {| ChatMessage.id := "1767268802501";
                   ChatMessage.message := Some (JStr fallbackText);
                   ChatMessage.is_user_message := false;
                   ChatMessage.timestamp := "2026-01-01T12:00:02.500Z" |} ])%list
  /\ browser_console a'
     = ([] ++ [ConsoleError "Error sending message:" NoDetail])%list.
Proof.
  apply (send_failure_stores_fallback trimmed provider_down true noon user_1
           typed_question);
    [discriminate | reflexivity | right; right; reflexivity | reflexivity | reflexivity].
Defined.
